(** * Earth Data Hub notebooks: catalog and notebook pipelines

    The repository holds a catalog file ([index.json]) and Jupyter notebooks
    whose code cells are straight sequences of calls into xarray, matplotlib
    and a plotting helper.  This development embeds

    - the catalog as a JSON value, with the checks on its entries;
    - the Python fragment the code cells are written in, as syntax trees;
    - the code cells of the two notebooks, cell by cell;
    - an evaluator for that fragment in which xarray objects are the task
      graphs the library builds lazily, which records every library call and
      in which any library call can be made to fail;
    - the properties of the cells and of their runs. *)

From Stdlib Require Import ZArith String Ascii List Bool Lia.
From stdpp Require Import base option list strings pretty gmap.

#[local] Set Warnings "-register-all".

Open Scope string_scope.
Open Scope list_scope.

(** ** The catalog, [index.json] *)

Module Catalog.

(** JSON values, as far as the catalog uses them.  An object keeps its members
    in file order. *)
Inductive json :=
| JString (s : string)
| JArray (items : list json)
| JObject (members : list (string * json)).

(** [o[k]] on an object; [None] when the member is absent or [o] is no object. *)
Definition member (k : string) (o : json) : option json :=
  match o with
  | JObject ms => snd <$> List.find (fun kv => String.eqb (fst kv) k) ms
  | _ => None
  end.

Definition as_string (j : json) : option string :=
  match j with JString s => Some s | _ => None end.

Definition string_member (k : string) (o : json) : option string :=
  member k o ≫= as_string.

(** The file [index.json]. *)
Definition index_json : json :=
  JObject [ ("entries", JArray [
    JObject [
      ("id", JString "floods-precipitation-anomaly");
      ("title", JString "How to work with ERA5 land: Greece 2023 floods due to storm Daniel");
      ("description", JString "This notebook will provide you guidance on how to access and use the reanalysis-era5-land-no-antartica-v0.zarr datset on Earth Data Hub. The first goal is to compute the total precipitation observed during the Storm Daniel event, from 6 to 7 September 2023, in Greece, and compare it with the average 1991-2020 precipitation in the same area. The second goal is to compare the 2023 cumulative precipitation on a specific location (Greece interland) with the cumulative precipitation of past years (1991-2022) for the same location.");
      ("source", JString "./use-cases/floods-precipitation-anomaly.ipynb");
      ("export", JString "./use-cases/floods-precipitation-anomaly.html");
      ("thumbnail_url", JString "./use-cases/floods-precipitation-anomaly.jpg");
      ("collection", JString "era5");
      ("dataset", JString "reanalysis-era5-land") ];
    JObject [
      ("id", JString "tutorial-era5-reanalysis-era5-single-levels");
      ("title", JString "How to work with ERA5 single levels: climatological analysis of temperature in Germany");
      ("description", JString "This notebook will provide you guidance on how to access and use the reanalysis-era5-single-levels.zarr datset on Earth Data Hub. The first goal is to compute the 2 metre temperature anomaly for the month of October 2023, in the Germany area, against the 1981-2010 reference period. The second goal is to compute the 2 metre temperature climatology (monthly means and standard deviations) in Berlin for the same reference period and compare it with the monthly averages of 2023.");
      ("source", JString "./use-cases/tutorial-era5-reanalysis-era5-single-levels.ipynb");
      ("export", JString "./use-cases/tutorial-era5-reanalysis-era5-single-levels.html");
      ("thumbnail_url", JString "./use-cases/tutorial-era5-reanalysis-era5-single-levels.jpg");
      ("collection", JString "era5");
      ("dataset", JString "reanalysis-era5-single-levels") ];
    JObject [
      ("id", JString "tutorial-cmems-reanalysis-cmems_mod_glo_phy_my_0.083_P1D-m");
      ("title", JString "El Nino events exploration");
      ("description", JString "An exploration of El Nino events using CMEMS data");
      ("source", JString "./use-cases/tutorial-cmems-reanalysis-cmems_mod_glo_phy_my_0.083_P1D-m.ipynb");
      ("export", JString "./use-cases/tutorial-cmems-reanalysis-cmems_mod_glo_phy_my_0.083_P1D-m.html");
      ("thumbnail_url", JString "./use-cases/tutorial-cmems-reanalysis-cmems_mod_glo_phy_my_0.083_P1D-m.jpg");
      ("collection", JString "cmems-reanalysis");
      ("dataset", JString "cmems_mod_glo_phy_my_0.083_P1D-m") ];
    JObject [
      ("id", JString "tutorial-ecmwf-forecasts-opendata-oper");
      ("title", JString "Surface temperature forecasts");
      ("description", JString "An exploration of surface temperature high-resolution forecasts");
      ("source", JString "./use-cases/tutorial-ecmwf-forecasts-opendata-oper.ipynb");
      ("export", JString "./use-cases/tutorial-ecmwf-forecasts-opendata-oper.html");
      ("thumbnail_url", JString "./use-cases/tutorial-ecmwf-forecasts-opendata-oper.jpg");
      ("collection", JString "ecmwf-forecasts");
      ("dataset", JString "opendata-oper") ];
    JObject [
      ("id", JString "tutorial-era5-ecv-for-climate-change");
      ("title", JString "Surface temperature data exploration");
      ("description", JString "An exploration of surface temperature variability using ERA5-derived data");
      ("source", JString "./use-cases/tutorial-era5-ecv-for-climate-change.ipynb");
      ("export", JString "./use-cases/tutorial-era5-ecv-for-climate-change.html");
      ("thumbnail_url", JString "./use-cases/tutorial-era5-ecv-for-climate-change.jpg");
      ("collection", JString "era5");
      ("dataset", JString "ecv-for-climate-change") ];
    JObject [
      ("id", JString "eurostats_final-energy-consumption");
      ("title", JString "EUROSTAT final energy consumption");
      ("description", JString "EUROSTAT Final Consumption of Energy data over Europe.");
      ("source", JString "./use-cases/eurostats_final-energy-consumption.ipynb");
      ("export", JString "./use-cases/eurostats_final-energy-consumption.html");
      ("thumbnail_url", JString "https://apps.mundialis.de/bopen_hedp/thumbnails/sdg_07_11-20000101-20210101.png");
      ("collection", JString "eurostat");
      ("dataset", JString "geoprocessed-eurostat-final-energy-consumption_sdg_07_11") ];
    JObject [
      ("id", JString "eurostats_CDD-and-HDD-data");
      ("title", JString "EUROSTAT CDD & HDD");
      ("description", JString "Eurostat CDD & HDD data over Europe.");
      ("source", JString "./use-cases/eurostats_CDD-and-HDD-data.ipynb");
      ("export", JString "./use-cases/eurostats_CDD-and-HDD-data.html");
      ("thumbnail_url", JString "https://apps.mundialis.de/bopen_hedp/thumbnails/nrg_chddr2_a-19790101-20220101.png");
      ("collection", JString "eurostat");
      ("dataset", JString "geoprocessed-eurostat-final-energy-consumption_sdg_07_11") ];
    JObject [
      ("id", JString "eurostats_population");
      ("title", JString "EUROSTAT population");
      ("description", JString "Eurostat population data over Europe.");
      ("source", JString "./use-cases/eurostats_population.ipynb");
      ("export", JString "./use-cases/eurostats_population.html");
      ("thumbnail_url", JString "https://apps.mundialis.de/bopen_hedp/thumbnails/demo_r_pjanaggr3-19900101-20220101.png");
      ("collection", JString "eurostat");
      ("dataset", JString "geoprocessed-eurostat-population-demo_r_pjanaggr3") ];
    JObject [
      ("id", JString "eurostats_population-density");
      ("title", JString "EUROSTAT population density");
      ("description", JString "Eurostat population density data over Europe.");
      ("source", JString "./use-cases/eurostats_population-density.ipynb");
      ("export", JString "./use-cases/eurostats_population-density.html");
      ("thumbnail_url", JString "https://apps.mundialis.de/bopen_hedp/thumbnails/demo_r_d3dens-19900101-20220101.png");
      ("collection", JString "eurostat");
      ("dataset", JString "geoprocessed-eurostat-population-density-demo_r_d3dens") ];
    JObject [
      ("id", JString "eurostats_gross-domestic-product");
      ("title", JString "EUROSTAT Gross domestic product");
      ("description", JString "Europe Gross domestic product (GDP).");
      ("source", JString "./use-cases/eurostats_gross-domestic-product.ipynb");
      ("export", JString "./use-cases/eurostats_gross-domestic-product.html");
      ("thumbnail_url", JString "https://apps.mundialis.de/bopen_hedp/thumbnails/nama_10r_3gdp-20000101-20210101.png");
      ("collection", JString "eurostat");
      ("dataset", JString "geoprocessed-eurostat-regional-economic-accounts_nama_10r_3gdp") ];
    JObject [
      ("id", JString "eurostats_soil-erosion");
      ("title", JString "EUROSTAT soil erosion");
      ("description", JString "Europe EUROSTAT soil erosion.");
      ("source", JString "./use-cases/eurostats_soil-erosion.ipynb");
      ("export", JString "./use-cases/eurostats_soil-erosion.html");
      ("thumbnail_url", JString "https://apps.mundialis.de/bopen_hedp/thumbnails/aei_pr_soiler-20000101-20160101.png");
      ("collection", JString "eurostat");
      ("dataset", JString "geoprocessed-eurostat-soil-erosion-aei_pr_soiler") ]  ]) ].

Definition entries : list json :=
  match member "entries" index_json with
  | Some (JArray es) => es
  | _ => []
  end.

(** The members the documentation site reads from an entry. *)
Definition required_members : list string :=
  [ "id"; "title"; "description"; "source"; "export"; "thumbnail_url";
    "collection"; "dataset" ].

Definition has_member (e : json) (k : string) : bool :=
  match string_member k e with Some _ => true | None => false end.

Definition complete (e : json) : bool :=
  forallb (has_member e) required_members.

(** [strip_suffix suf s] is [Some p] when [s = p ++ suf]. *)
Fixpoint strip_suffix (suf s : string) : option string :=
  if String.eqb s suf then Some ""
  else match s with
       | EmptyString => None
       | String c s' => String c <$> strip_suffix suf s'
       end.

(** The path of the exported page of a notebook: [.ipynb] becomes [.html]. *)
Definition html_of_ipynb (src : string) : option string :=
  (fun stem => stem +:+ ".html") <$> strip_suffix ".ipynb" src.

Definition export_matches_source (e : json) : bool :=
  match string_member "source" e, string_member "export" e with
  | Some src, Some exp =>
      match html_of_ipynb src with
      | Some h => String.eqb h exp
      | None => false
      end
  | _, _ => false
  end.

Definition source_in_use_cases (e : json) : bool :=
  match string_member "source" e with
  | Some src => String.prefix "./use-cases/" src
  | None => false
  end.

End Catalog.

(** ** The Python fragment of the code cells *)

Module Py.

Inductive binop := Sub | Mult | Div.

(** Expressions, named after the nodes of Python's [ast] module.  A keyword
    argument [(Some k, e)] is [k=e]; [(None, e)] is [**e]. *)
Inductive expr :=
| Name (id : string)
| Str (s : string)
| Int (n : Z)
| Float (literal : string)            (* a decimal literal, kept as written *)
| NoneLit
| TrueLit
| Attribute (value : expr) (attr : string)
| Subscript (value : expr) (index : expr)
| Call (func : expr) (args : list expr) (keywords : list (option string * expr))
| ListLit (elts : list expr)
| TupleLit (elts : list expr)
| DictLit (items : list (expr * expr))
| BinOp (left : expr) (op : binop) (right : expr)
| CompareEq (left : expr) (right : expr)
| JoinedStr (values : list expr)      (* an f-string: literal and formatted parts *)
| ListComp (elt : expr) (generators : list (string * expr)).

(** Statements.  [Magic] is an IPython [%]-line, [Comment] a [#]-line; the
    notebooks author neither [While], [Try] nor [Raise], which are here so that
    their absence is a property of the cells and not of this type. *)
Inductive stmt :=
| Import (module : string) (asname : option string)
| Magic (line : string)
| Comment (text : string)
| Assign (target : expr) (value : expr)
| Expr (value : expr)
| For (target : string) (iter : expr) (body : list stmt)
| If (test : expr) (body : list stmt) (orelse : list stmt)
| While (test : expr) (body : list stmt)
| Try (body : list stmt) (handler : list stmt)
| Raise (exc : expr).

Definition kw (k : string) (e : expr) : option string * expr := (Some k, e).
Definition starstar (e : expr) : option string * expr := (None, e).

(** [obj.m(args, keywords)] *)
Definition method (obj : expr) (m : string) (args : list expr)
    (keywords : list (option string * expr)) : expr :=
  Call (Attribute obj m) args keywords.

(** A builtin called on positional arguments, such as [slice(41, 34)]. *)
Definition builtin (f : string) (args : list expr) : expr :=
  Call (Name f) args [].

End Py.

(** ** Notebook files *)

Module Notebook.
Import Py.

(** A cell of an [.ipynb] file.  A markdown cell is kept by its id only; a code
    cell keeps its stored execution count, its stored outputs and its source. *)
Inductive cell :=
| Markdown (id : string)
| Code (id : string) (execution_count : option nat) (outputs : list string)
       (source : list stmt).

Definition notebook := list cell.

Definition source_of (c : cell) : list stmt :=
  match c with
  | Markdown _ => []
  | Code _ _ _ src => src
  end.

Definition is_code (c : cell) : bool :=
  match c with Code _ _ _ _ => true | Markdown _ => false end.

Definition code_cells (nb : notebook) : list cell := List.filter is_code nb.

(** The whole program of a notebook: its code cells, top to bottom. *)
Definition program (nb : notebook) : list stmt := flat_map source_of nb.

End Notebook.

(** ** use-cases/floods-precipitation-anomaly.ipynb

    The notebook of the first catalog entry. *)

Module Floods.
Import Py Notebook.

Definition YEARS : expr :=
  ListLit (Str <$>
    [ "1991"; "1992"; "1993";
      "1994"; "1995"; "1996";
      "1997"; "1998"; "1999";
      "2000"; "2001"; "2002";
      "2003"; "2004"; "2005";
      "2006"; "2007"; "2008";
      "2009"; "2010"; "2011";
      "2012"; "2013"; "2014";
      "2015"; "2016"; "2017";
      "2018"; "2019"; "2020" ]).

Definition DAYS : expr :=
  ListLit (Str <$>
    [ "01"; "02"; "03";
      "04"; "05"; "06";
      "07"; "08"; "09";
      "10"; "11"; "12";
      "13"; "14"; "15";
      "16"; "17"; "18";
      "19"; "20"; "21";
      "22"; "23"; "24";
      "25"; "26"; "27";
      "28"; "29"; "30" ]).

Definition cells : notebook :=
  [ Markdown "b0e5f65f-c407-4b76-bfc6-08163e482f99";
    Markdown "9340306b-172d-4144-aeff-59fd0128af32";
    Markdown "6545d036-1a5a-4849-b0ce-98925c0aae12";
    Code "7c2365fb" None []
      [ Import "xarray" (Some "xr");
        Assign (Name "ds")
          (method
             (Call (Attribute (Name "xr") "open_dataset")
                [ Str "s3://ecmwf-era5-land/reanalysis-era5-land-no-antartica-v0.zarr" ]
                [ kw "chunks" (DictLit []); kw "engine" (Str "zarr") ])
             "astype" [ Str "float32" ] []);
        Expr (Name "ds") ];
    Markdown "c2831260-83fd-40e9-bf8c-31803133da0e";
    Markdown "54780609-3472-47a4-8d2b-6236b6b2e9b2";
    Markdown "67d4d790-4fe5-4aaa-b1ac-9d5ee039d20e";
    Code "515a2608" None []
      [ Assign (Name "tp") (Attribute (Name "ds") "tp");
        Assign (Name "tp_greece")
          (method (Name "tp") "sel" []
             [ starstar (DictLit
                 [ (Str "latitude", builtin "slice" [ Int 41; Int 34 ]);
                   (Str "longitude", builtin "slice" [ Int 19; Int 28 ]) ]) ]);
        Expr (Name "tp_greece") ];
    Markdown "15304d63-31d7-4504-9fbb-8e094ad23e52";
    Code "451522d5-cc9e-4fbf-9138-c96b0e58422c" None []
      [ Assign (Name "tp_greece_storm_daniel")
          (method (Name "tp_greece") "sel" []
             [ kw "valid_time" (ListLit [ Str "2023-09-06"; Str "2023-09-07" ]) ]);
        Expr (Name "tp_greece_storm_daniel") ];
    Markdown "9044acdf-8005-4b1e-a44b-3d07f7351f9f";
    Code "d3dd40a4-0862-48e9-b708-cd28d2a9793e" None []
      [ Magic "%time";
        Assign (Name "tp_greece_storm_daniel")
          (method (Name "tp_greece_storm_daniel") "compute" [] []) ];
    Markdown "01f1f904-164f-4d7c-ba8d-1057f43308a9";
    Markdown "15ec1b72-df32-4952-b119-b7f0a62237ea";
    Code "4e0a1540-98b6-4460-8b22-db63d7c8648f" None []
      [ Assign (Name "tp_greece_storm_daniel_sum")
          (method (Name "tp_greece_storm_daniel") "sum" [ Str "valid_time" ] []);
        Expr (Name "tp_greece_storm_daniel_sum");
        Assign (Name "tp_greece_storm_daniel_sum")
          (BinOp (Name "tp_greece_storm_daniel_sum") Mult (Int 1000));
        Assign (Subscript (Attribute (Name "tp_greece_storm_daniel_sum") "attrs")
                  (Str "units"))
          (Str "mm");
        Expr (Name "tp_greece_storm_daniel_sum") ];
    Markdown "8385e60e-7cf4-46b1-a20d-af5e209240b0";
    Code "9ebbf756-8458-45bd-9232-5552ff1c5805" None []
      [ Import "display" None;
        Expr (Call (Attribute (Name "display") "map")
                [ Name "tp_greece_storm_daniel_sum" ]
                [ kw "vmax" (Int 400); kw "title" (Str "Storm Daniel precipitation") ]) ];
    Markdown "a4f56c3c-de01-4600-ae55-d606c17a09bf";
    Code "cce4fb6d" None []
      [ Assign (Name "YEARS") YEARS;
        Assign (Name "DAYS") DAYS;
        Assign (Name "MONTH_REFERENCE_TIME")
          (ListComp (JoinedStr [ Name "y"; Str "-09-"; Name "d" ])
             [ ("y", Name "YEARS"); ("d", Name "DAYS") ]);
        Assign (Name "tp_greece_september_1991_2020")
          (method (Name "tp_greece") "sel" []
             [ kw "valid_time" (Name "MONTH_REFERENCE_TIME") ]);
        Expr (Name "tp_greece_september_1991_2020") ];
    Markdown "99f2a265-27c7-44a7-9086-d4a0cb364ea2";
    Code "a26f17ac-fb7b-4382-8fab-729fb791915f" None []
      [ Magic "%time";
        Assign (Name "tp_greece_september_1991_2020")
          (method (Name "tp_greece_september_1991_2020") "compute" [] []) ];
    Markdown "8b634346-8567-463e-b5ba-dddf5c0e9e1d";
    Code "3e46d01e-d583-459c-8f07-193c8094fa94" None []
      [ Assign (Name "tp_greece_september_1991_2020_average")
          (BinOp
             (method (Name "tp_greece_september_1991_2020") "sum"
                [ Str "valid_time" ] [])
             Div
             (builtin "len" [ Name "YEARS" ]));
        Expr (Name "tp_greece_september_1991_2020_average");
        Assign (Name "tp_greece_september_1991_2020_average")
          (BinOp (Name "tp_greece_september_1991_2020_average") Mult (Int 1000));
        Assign (Subscript
                  (Attribute (Name "tp_greece_september_1991_2020_average") "attrs")
                  (Str "units"))
          (Str "mm") ];
    Markdown "489b303d-c9f9-4a59-b49a-c5c78d5e6de2";
    Code "52bd5e21" None []
      [ Expr (Call (Attribute (Name "display") "maps")
                [ ListLit [ Name "tp_greece_storm_daniel_sum";
                            Name "tp_greece_september_1991_2020_average" ] ]
                [ kw "vmax" (Int 400);
                  kw "axs_set"
                    (ListLit
                       [ DictLit [ (Str "title", Str "Storm Daniel precipitation") ];
                         DictLit [ (Str "title", Str "Average precipitation in September") ] ]) ]) ];
    Markdown "b423f66a-e524-4809-ae3d-0539e652c44d";
    Markdown "a3b844f2-eefb-419a-acfd-6d95148d6179";
    Code "cff9826c" None []
      [ Assign (Name "tp_hinterland_location")
          (method (Attribute (Name "ds") "tp") "sel" []
             [ starstar (DictLit
                 [ (Str "latitude", Float "39.25");
                   (Str "longitude", Float "21.9");
                   (Str "method", Str "nearest") ]) ]);
        Expr (Name "tp_hinterland_location") ];
    Markdown "41f1dbe1-c9fd-4e67-99f9-b1f81de08831";
    Code "c9190f9c-9ea2-4301-ad2a-75b4e82ffd32" None []
      [ Magic "%%time";
        Assign (Name "tp_hinterland_location")
          (method (Name "tp_hinterland_location") "compute" [] []) ];
    Markdown "26b57ec7-52c4-46f8-b9e8-f7cfb84f1cdc";
    Code "3e0a2d0f-4706-434b-8489-7eceebd77850" None []
      [ Import "datetime" None;
        Assign (Name "tp_hinterland_location_daily_total_2023")
          (Subscript
             (method
                (method (Name "tp_hinterland_location") "sel" []
                   [ kw "valid_time" (Str "2023") ])
                "groupby" [ Str "valid_time.time" ] [])
             (Call (Attribute (Name "datetime") "time") [] []));
        Assign (Name "tp_hinterland_location_daily_total_1991_2022")
          (Subscript
             (method
                (method (Name "tp_hinterland_location") "sel" []
                   [ kw "valid_time" (builtin "slice" [ Str "1991"; Str "2020" ]) ])
                "groupby" [ Str "valid_time.time" ] [])
             (Call (Attribute (Name "datetime") "time") [] [])) ];
    Markdown "02dc3de9-6f45-4f40-ba93-0cef67f6196d";
    Code "f64f2a30-b8d3-405c-b547-340b330929f7" None []
      [ Expr (Call (Attribute (Name "display") "compare")
                [ Name "tp_hinterland_location_daily_total_2023";
                  Name "tp_hinterland_location_daily_total_1991_2022" ]
                [ kw "time" (Str "valid_time");
                  kw "ylim" (ListLit [ Int 0; Int 1600 ]) ]) ]
  ].

End Floods.

(** ** use-cases/tutorial-era5-reanalysis-era5-single-levels.ipynb *)

Module Era5.
Import Py Notebook.

Definition cells : notebook :=
  [ Markdown "45c4009e-b179-41ba-80a9-72d3f495a9a2";
    Markdown "8a6d3800-0834-40cc-af79-92af996a2e3a";
    Markdown "e0ab81f1-8c8f-4b32-b26e-e1e121b231a0";
    Code "1813f28e-0200-4dc8-bfa1-360de371e1d2" None []
      [ Import "xarray" (Some "xr");
        Comment " your `~/.netrc` file MUST contain your credentials for earthdatahub.com";
        Comment "";
        Comment " machine earthdatahub.com";
        Comment "   login {your_username}";
        Comment "   password {your_password}";
        Assign (Name "ds")
          (Call (Attribute (Name "xr") "open_dataset")
             [ Str "https://earthdatahub.com/stores/ecmwf-era5-single-levels/reanalysis-era5-single-levels.zarr" ]
             [ kw "chunks" (DictLit []);
               kw "engine" (Str "zarr");
               kw "storage_options"
                 (DictLit [ (Str "client_kwargs",
                             DictLit [ (Str "trust_env", TrueLit) ]) ]) ]);
        Expr (Name "ds") ];
    Markdown "47a86e43-8fd4-45d6-8562-ef3dde4e0f3a";
    Markdown "c758022a-ed70-44d3-8e55-8e202149ddbb";
    Markdown "37a66374-61b0-4253-8a97-1f3b80231f3b";
    Code "afd7472f-7b61-4ab1-bbd7-20f018e9c611" None []
      [ Assign (Name "t2m")
          (BinOp (method (Attribute (Name "ds") "t2m") "astype" [ Str "float32" ] [])
                 Sub (Float "273.15"));
        Assign (Subscript (Attribute (Name "t2m") "attrs") (Str "units")) (Str "C");
        Assign (Name "t2m_germany_area")
          (method (Name "t2m") "sel" []
             [ starstar (DictLit
                 [ (Str "latitude", builtin "slice" [ Int 55; Int 47 ]);
                   (Str "longitude", builtin "slice" [ Int 5; Int 16 ]) ]) ]);
        Expr (Name "t2m_germany_area") ];
    Markdown "92912551-2146-4104-8c60-8898a5db8fb8";
    Code "d5c84107-e206-4b19-8067-14d49010b841" None []
      [ Assign (Name "t2m_germany_area_october_2023")
          (method (Name "t2m_germany_area") "sel" []
             [ kw "valid_time" (Str "2023-10") ]);
        Expr (Name "t2m_germany_area_october_2023") ];
    Markdown "0d3e24c3-1c72-44a4-9f96-c708281a939e";
    Code "d825f6c6-2da8-430e-8f11-8d03a0d2a7a4" None []
      [ Magic "%time";
        Assign (Name "t2m_germany_area_october_2023")
          (method (Name "t2m_germany_area_october_2023") "compute" [] []) ];
    Markdown "33a1f7bd-e98a-46d7-a9f0-4f4abe4913eb";
    Markdown "4b0d0292-9a62-47f4-8a6a-2acdd57fa9c2";
    Code "dad2b7ff-88b6-40d5-bba3-c559e58ecdbf" None []
      [ Assign (Name "t2m_germany_area_october_2023_monthly_mean")
          (method (Name "t2m_germany_area_october_2023") "mean" []
             [ kw "dim" (Str "valid_time") ]);
        Expr (Name "t2m_germany_area_october_2023_monthly_mean") ];
    Markdown "52aa192a-e7ca-46c2-8b36-18ef9d55b335";
    Code "e2f79322-8219-4b51-ba56-d37eb5028a44" None []
      [ Import "display" None;
        Import "matplotlib.pyplot" (Some "plt") ];
    Code "92b515ff-0820-4a92-b806-35c58235dab2" None []
      [ Expr (Call (Attribute (Name "display") "map")
                [ Name "t2m_germany_area_october_2023_monthly_mean" ]
                [ kw "vmax" NoneLit; kw "cmap" (Str "YlOrRd");
                  kw "title" (Str "Mean Surface Temperature, Oct 2023") ]) ];
    Markdown "048c92cb-2e7b-4b21-879b-bdb5f949a186";
    Code "90c55dba-1e84-40e1-91aa-5199fa298d06" None []
      [ Assign (Name "t2m_germany_area_octobers_1981_2010")
          (method
             (method (Name "t2m_germany_area") "sel" []
                [ kw "valid_time"
                    (CompareEq
                       (Subscript (Name "t2m_germany_area") (Str "valid_time.month"))
                       (Int 10)) ])
             "sel" []
             [ kw "valid_time" (builtin "slice" [ Str "1981"; Str "2010" ]) ]);
        Expr (Name "t2m_germany_area_octobers_1981_2010") ];
    Markdown "18d731ef-4bea-4468-b54f-6e53c53945da";
    Code "cb3dd05a-68ed-4a43-be07-4e98f5798c8b" None []
      [ Magic "%%time";
        Assign (Name "t2m_germany_area_octobers_1981_2010")
          (method (Name "t2m_germany_area_octobers_1981_2010") "compute" [] []) ];
    Markdown "26857500-7008-4449-a9c0-44b5352c7cc6";
    Code "260e9ed8-60a5-4c74-b3f7-bf62597f92c4" None []
      [ Assign (Name "t2m_germany_area_octobers_1981_2010_mean")
          (method (Name "t2m_germany_area_octobers_1981_2010") "mean" []
             [ kw "dim" (Str "valid_time") ]) ];
    Markdown "19393deb-97e5-4c36-a8cc-2cc7da841b9c";
    Code "673ddbe7-d3af-4d93-815b-0f06ef5ba447" None []
      [ Assign (Name "anomaly")
          (BinOp (Name "t2m_germany_area_october_2023_monthly_mean") Sub
                 (Name "t2m_germany_area_octobers_1981_2010_mean"));
        Expr (Name "anomaly") ];
    Markdown "07ae2b4a-77f4-4cbe-ad71-5338d9fe4e65";
    Code "c798f9af-65af-40c3-be38-4566fc342706" None []
      [ Expr (Call (Attribute (Name "display") "map")
                [ Name "anomaly" ]
                [ kw "vmax" NoneLit; kw "cmap" (Str "YlOrRd");
                  kw "title"
                    (Str "Mean Surface Temperature anomaly (ref 1981-2010), Oct 2013") ]) ];
    Markdown "d4354ad5-fd8f-4687-b9c1-67475164c4fd";
    Markdown "fbb2570e-0a52-4495-9ba4-709dfb7c1258";
    Code "d803a1ce-ef64-42e2-81bb-e66fb242a035" None []
      [ Magic "%%time";
        Assign (Name "t2m_Berlin")
          (method (Name "t2m") "sel" []
             [ starstar (DictLit
                 [ (Str "latitude", Float "52.5");
                   (Str "longitude", Float "13.4") ]);
               kw "method" (Str "nearest") ]);
        Expr (Name "t2m_Berlin") ];
    Markdown "666702b5-b9bb-4ca4-a7f4-b3b5c0053c3e";
    Code "dfe4d12a-523a-486a-8ab0-8e3967898790" None []
      [ Magic "%%time";
        Assign (Name "t2m_Berlin") (method (Name "t2m_Berlin") "compute" [] []) ];
    Markdown "d42bc337-5311-4076-9cbe-185184657623";
    Code "e6789d3c-25ce-4c2b-993b-cb12dbcad19c" None []
      [ Assign (Name "t2m_Berlin_climatology_mean")
          (method
             (method
                (method (Name "t2m_Berlin") "sel" []
                   [ kw "valid_time" (builtin "slice" [ Str "1981"; Str "2010" ]) ])
                "groupby" [ Str "valid_time.month" ] [])
             "mean" [] [ kw "dim" (Str "valid_time") ]);
        Assign (Name "t2m_Berlin_climatology_std")
          (method
             (method
                (method (Name "t2m_Berlin") "sel" []
                   [ kw "valid_time" (builtin "slice" [ Str "1981"; Str "2010" ]) ])
                "groupby" [ Str "valid_time.month" ] [])
             "std" [] [ kw "dim" (Str "valid_time") ]) ];
    Markdown "de1cc9f8-c8c6-4fd0-9f0c-047a49ac951a";
    Code "861f10cd-0d93-42b9-956e-4e73c4958a19" None []
      [ Assign (Name "t2m_Berlin_2023_monthly_means")
          (method
             (method
                (method (Name "t2m_Berlin") "sel" [] [ kw "valid_time" (Str "2023") ])
                "resample" [] [ kw "valid_time" (Str "1M") ])
             "mean" [] [ kw "dim" (Str "valid_time") ]);
        Expr (Name "t2m_Berlin_2023_monthly_means") ];
    Markdown "3bceb338-0a99-4f26-b110-e2a4e589d2b1";
    Code "6605298a-341c-477c-9f96-465999f78f3f" None []
      [ Expr (Call (Attribute (Name "plt") "figure") []
                [ kw "figsize" (TupleLit [ Int 10; Int 5 ]) ]);
        Expr (method (Name "t2m_Berlin_climatology_mean") "plot" []
                [ kw "label" (Str "Mean"); kw "color" (Str "#3498db") ]);
        Expr (Call (Attribute (Name "plt") "errorbar")
                [ Attribute (Name "t2m_Berlin_climatology_mean") "month";
                  Name "t2m_Berlin_climatology_mean" ]
                [ kw "yerr" (Name "t2m_Berlin_climatology_std");
                  kw "fmt" (Str "o");
                  kw "label" (Str "Standard Deviation");
                  kw "color" (Str "#a9a9a9") ]);
        For "month" (builtin "range" [ Int 1; Int 11 ])
          [ Assign (Name "t2m_point")
              (method (Name "t2m_Berlin_2023_monthly_means") "sel" []
                 [ kw "valid_time"
                     (CompareEq
                        (Subscript (Name "t2m_Berlin_2023_monthly_means")
                           (Str "valid_time.month"))
                        (Name "month")) ]);
            Assign (Name "label") NoneLit;
            If (CompareEq (Name "month") (Int 1))
              [ Assign (Name "label") (Str "2023") ]
              [];
            Expr (Call (Attribute (Name "plt") "scatter")
                    [ Name "month"; Name "t2m_point" ]
                    [ kw "color" (Str "#ff6600"); kw "label" (Name "label") ]) ];
        Expr (Call (Attribute (Name "plt") "title")
                [ Str "Surface Temperature climatology in Berlin (DE), 1981-2010" ] []);
        Expr (Call (Attribute (Name "plt") "xticks")
                [ Attribute (Name "t2m_Berlin_climatology_mean") "month" ] []);
        Expr (Call (Attribute (Name "plt") "xlabel") [ Str "Month" ] []);
        Expr (Call (Attribute (Name "plt") "ylabel") [ Str "Surface Temperature [C]" ] []);
        Expr (Call (Attribute (Name "plt") "legend") [] []);
        Expr (Call (Attribute (Name "plt") "grid") [] [ kw "alpha" (Float "0.3") ]);
        Expr (Call (Attribute (Name "plt") "show") [] []) ];
    Code "68e82fd2-2282-4509-8206-18631ee1bfd0" None [] []
  ].

End Era5.

(** ** xarray objects as task graphs *)

Module Lazy.

(** Scalars that reach the library as indexers, group keys or operands. *)
Inductive atom :=
| AInt (n : Z)
| AFloat (literal : string)
| AStr (s : string)
| ATime.                               (* [datetime.time()], midnight *)

Inductive reducer := Sum | Mean | Std.

Inductive arith := ASub | AMult | ADiv | AEq.

(** What the library holds for a dataset, an array, a group-by or a resampler:
    the operations that were asked for, innermost first.  With [chunks={}]
    nothing below a [Compute] node has been fetched. *)
Inductive graph :=
| Open (url : string)                                   (* xr.open_dataset(url, ...) *)
| Variable_ (d : graph) (name : string)                 (* ds.name *)
| Astype (a : graph) (dtype : string)                   (* a.astype(dtype) *)
| Const (c : atom)                                      (* a scalar operand *)
| Arith (op : arith) (l r : graph)                      (* l - r, l * r, l / r, l == r *)
| Coord (a : graph) (name : string)                     (* a["name"], a.name *)
| Sel (a : graph) (indexers : list (string * indexer))
      (method : option string)                          (* a.sel(...) *)
| Compute (a : graph)                                   (* a.compute() *)
| Reduce (r : reducer) (a : graph) (dim : string)       (* a.sum(dim), a.mean(dim=dim), ... *)
| GroupBy (a : graph) (field : string)                  (* a.groupby(field) *)
| Group (g : graph) (key : atom)                        (* g[key] *)
| Resample (a : graph) (dim freq : string)              (* a.resample(dim=freq) *)
with indexer :=
| ISlice (start stop : atom)
| IAtom (c : atom)
| IList (cs : list atom)
| IMask (m : graph).

Inductive kind := KDataset | KArray | KGroupBy | KResample.

Fixpoint kind_of (g : graph) : kind :=
  match g with
  | Open _ => KDataset
  | Astype a _ | Sel a _ _ | Compute a => kind_of a
  | GroupBy _ _ => KGroupBy
  | Resample _ _ _ => KResample
  | Reduce _ _ _ | Variable_ _ _ | Const _ | Arith _ _ _ | Coord _ _ | Group _ _ => KArray
  end.

(** The methods of each kind of object that the evaluator knows. *)
Definition methods (k : kind) : list string :=
  match k with
  | KDataset => [ "astype"; "sel"; "compute" ]
  | KArray => [ "astype"; "sel"; "compute"; "sum"; "mean"; "std";
                "groupby"; "resample"; "plot" ]
  | KGroupBy | KResample => [ "sum"; "mean"; "std" ]
  end.

Definition reducer_of (name : string) : option reducer :=
  if String.eqb name "sum" then Some Sum
  else if String.eqb name "mean" then Some Mean
  else if String.eqb name "std" then Some Std
  else None.

(** Modelled from the spec: a view derived from the remote store is a lazy
    reference until it is materialized (xarray and dask, which decide this,
    are not part of the repository).  The data a graph stands for is resident
    in memory when every array it is built from has gone through
    [.compute()]; scalars and coordinate labels come with the metadata and are
    always at hand. *)
Fixpoint in_memory (g : graph) : bool :=
  match g with
  | Open _ => false
  | Variable_ d _ => in_memory d
  | Astype a _ => in_memory a
  | Const _ => true
  | Arith _ l r => in_memory l && in_memory r
  | Coord _ _ => true
  | Sel a _ _ => in_memory a
  | Compute _ => true
  | Reduce _ a _ => in_memory a
  | GroupBy a _ => in_memory a
  | Group g _ => in_memory g
  | Resample a _ _ => in_memory a
  end.

(** The furthest step of the pipeline a graph has been through:
    1 opened, 2 selected, 3 materialized, 4 reduced; 0 for a scalar. *)
Fixpoint stage (g : graph) : nat :=
  match g with
  | Open _ => 1
  | Variable_ d _ => stage d
  | Astype a _ => stage a
  | Const _ => 0
  | Arith _ l r => stage l `max` stage r
  | Coord a _ => stage a
  | Sel a _ _ => 2 `max` stage a
  | Compute a => 3 `max` stage a
  | Reduce _ a _ => 4 `max` stage a
  | GroupBy a _ => 4 `max` stage a
  | Group g _ => stage g
  | Resample a _ _ => 4 `max` stage a
  end.

End Lazy.

(** ** Running the code cells *)

Module Eval.
Import Py Lazy.

Inductive value :=
| VNone
| VBool (b : bool)
| VInt (n : Z)
| VFloat (literal : string)
| VStr (s : string)
| VList (vs : list value)
| VTuple (vs : list value)
| VDict (items : list (value * value))
| VSlice (start stop : value)
| VTime
| VModule (name : string)
| VFunction (module name : string)
| VBuiltin (name : string)
| VXarray (g : graph) (attrs : list (string * value))
| VMethod (g : graph) (attrs : list (string * value)) (name : string).

(** One call into a library.  [EvOp g] is the graph operation that produced
    [g]: the head of [g] names the operation, the graph below it the operand. *)
Inductive event :=
| EvOpen (url : string) (keywords : list (string * value))
| EvOp (result : graph)
| EvPlot (module name : string) (args : list value) (keywords : list (string * value)).

Inductive exn :=
| NameError (id : string)
| TypeError (what : string)
| AttributeError (attr : string)
| Unsupported (what : string)          (* outside the fragment evaluated here *)
| Failure (msg : string).              (* raised from inside a library call *)

(** The interpreter state: the kernel's namespace, the number of library calls
    made so far and the calls that returned, oldest first. *)
Record state := {
  env : gmap string value;
  calls : nat;
  trace : list event
}.

Definition initial : state := {| env := ∅; calls := 0; trace := [] |}.

Inductive outcome (A : Type) :=
| Ok (a : A) (s : state)
| Raised (e : exn) (s : state).
Arguments Ok {A} a s.
Arguments Raised {A} e s.

Definition M (A : Type) : Type := state -> outcome A.

Definition ret {A} (a : A) : M A := fun s => Ok a s.

Definition bind {A B} (m : M A) (k : A -> M B) : M B :=
  fun s => match m s with
           | Ok a s' => k a s'
           | Raised e s' => Raised e s'
           end.

Definition raise {A} (e : exn) : M A := fun s => Raised e s.

Notation "'do' x <- m ; k" := (bind m (fun x => k))
  (at level 10, x name, m at level 100, k at level 200).
Notation "m ;; k" := (bind m (fun _ => k))
  (at level 100, k at level 200, right associativity).

Definition from_option {A} (e : exn) (o : option A) : M A :=
  match o with Some a => ret a | None => raise e end.

Definition builtins : list string := [ "len"; "range"; "slice" ].

Definition lookup_name (x : string) : M value :=
  fun s => match env s !! x with
           | Some v => Ok v s
           | None => if existsb (String.eqb x) builtins then Ok (VBuiltin x) s
                     else Raised (NameError x) s
           end.

Definition set_name (x : string) (v : value) : M unit :=
  fun s => Ok tt {| env := <[x := v]> (env s); calls := calls s; trace := trace s |}.

(** A comprehension evaluates in a scope of its own: the namespace is put back
    when it is done. *)
Definition scoped {A} (m : M A) : M A :=
  fun s => match m s with
           | Ok a s' => Ok a {| env := env s; calls := calls s'; trace := trace s' |}
           | Raised e s' => Raised e s'
           end.

Definition assoc {A} (k : string) (l : list (string * A)) : option A :=
  snd <$> List.find (fun kv => String.eqb (fst kv) k) l.

Definition set_assoc {A} (k : string) (a : A) (l : list (string * A)) : list (string * A) :=
  List.filter (fun kv => negb (String.eqb (fst kv) k)) l ++ [ (k, a) ].

Definition as_atom (v : value) : option atom :=
  match v with
  | VInt n => Some (AInt n)
  | VFloat l => Some (AFloat l)
  | VStr s => Some (AStr s)
  | VTime => Some ATime
  | _ => None
  end.

Definition as_indexer (v : value) : option indexer :=
  match v with
  | VSlice lo hi =>
      match as_atom lo, as_atom hi with
      | Some a, Some b => Some (ISlice a b)
      | _, _ => None
      end
  | VList vs => IList <$> mapM as_atom vs
  | VXarray m _ => Some (IMask m)
  | _ => IAtom <$> as_atom v
  end.

Definition as_operand (v : value) : option graph :=
  match v with
  | VXarray g _ => Some g
  | _ => Const <$> as_atom v
  end.

Definition is_xarray (v : value) : bool :=
  match v with VXarray _ _ => true | _ => false end.

(** [**d] passes the items of [d] as keyword arguments. *)
Definition keyword_items (k : option string) (v : value) : option (list (string * value)) :=
  match k, v with
  | Some name, _ => Some [ (name, v) ]
  | None, VDict items =>
      mapM (fun kv => match fst kv with
                      | VStr name => Some (name, snd kv)
                      | _ => None
                      end) items
  | None, _ => None
  end.

Definition plotting_modules : list string := [ "display"; "matplotlib.pyplot" ].

Definition format_part (v : value) : M string :=
  match v with
  | VStr s => ret s
  | _ => raise (Unsupported "format")
  end.

Definition items_of (v : value) : M (list value) :=
  match v with
  | VList vs => ret vs
  | _ => raise (Unsupported "iteration")
  end.

Definition truth (v : value) : M bool :=
  match v with
  | VBool b => ret b
  | _ => raise (Unsupported "truth value")
  end.

(** Left-to-right evaluation of a list of things. *)
Section Traverse.
Context {A B : Type} (f : A -> M B).

Fixpoint each (xs : list A) : M (list B) :=
  match xs with
  | [] => ret []
  | x :: xs' => do y <- f x; do ys <- each xs'; ret (y :: ys)
  end.

End Traverse.

(** A block: its statements in order. *)
Definition block {A} (f : A -> M unit) (cs : list A) : M unit :=
  each f cs ;; ret tt.

(** The clauses [for x in it] of a comprehension, outermost first, around the
    element expression. *)
Fixpoint comprehension (elt : M value) (gens : list (string * M value)) : M (list value) :=
  match gens with
  | [] => do v <- elt; ret [ v ]
  | (x, it) :: gens' =>
      do seq <- it;
      do items <- items_of seq;
      do chunks <- each (fun v => set_name x v ;; comprehension elt gens') items;
      ret (concat chunks)
  end.

(** [while test: body], for at most [n] iterations. *)
Fixpoint while_loop (test : M bool) (body : M unit) (n : nat) : M unit :=
  match n with
  | O => raise (Unsupported "while: out of fuel")
  | S n' => do b <- test; if b then body ;; while_loop test body n' else ret tt
  end.

(** [try: body / except: handler] runs the handler when the body raises. *)
Definition catch (body handler : M unit) : M unit :=
  fun s => match body s with
           | Ok a s' => Ok a s'
           | Raised _ s' => handler s'
           end.

Section Run.

(** [plan n] is the exception, if any, that the [n]-th library call of the run
    raises; [fuel] bounds the iterations of a [while]. *)
Variable plan : nat -> option exn.
Variable fuel : nat.

(** A call into a library: it raises what the plan says, or returns and is
    recorded. *)
Definition library (ev : event) : M unit :=
  fun s =>
    match plan (calls s) with
    | Some e => Raised e {| env := env s; calls := S (calls s); trace := trace s |}
    | None => Ok tt {| env := env s; calls := S (calls s); trace := trace s ++ [ ev ] |}
    end.

(** A graph operation: the library is asked for [g] and hands back a new
    object, on which no attribute has been assigned yet. *)
Definition operation (g : graph) : M value :=
  library (EvOp g) ;; ret (VXarray g []).

Definition get_attr (o : value) (a : string) : M value :=
  match o with
  | VModule m => ret (VFunction m a)
  | VXarray g attrs =>
      if existsb (String.eqb a) (methods (kind_of g)) then ret (VMethod g attrs a)
      else if String.eqb a "attrs" then
        ret (VDict ((fun kv => (VStr (fst kv), snd kv)) <$> attrs))
      else match kind_of g with
           | KDataset => operation (Variable_ g a)
           | KArray => operation (Coord g a)
           | _ => raise (AttributeError a)
           end
  | _ => raise (AttributeError a)
  end.

Definition get_item (o i : value) : M value :=
  match o with
  | VXarray g _ =>
      match kind_of g, i with
      | KDataset, VStr c => operation (Variable_ g c)
      | KArray, VStr c => operation (Coord g c)
      | KGroupBy, _ =>
          do k <- from_option (TypeError "group key") (as_atom i);
          operation (Group g k)
      | _, _ => raise (TypeError "subscript")
      end
  | _ => raise (Unsupported "subscript")
  end.

Definition binary (op : arith) (l r : value) : M value :=
  if is_xarray l || is_xarray r then
    match as_operand l, as_operand r with
    | Some a, Some b => operation (Arith op a b)
    | _, _ => raise (TypeError "operand")
    end
  else
    match l, r, op with
    | VInt a, VInt b, ASub => ret (VInt (a - b))
    | VInt a, VInt b, AMult => ret (VInt (a * b))
    | VInt a, VInt b, AEq => ret (VBool (a =? b)%Z)
    | _, _, _ => raise (Unsupported "arithmetic")
    end.

Definition call_builtin (b : string) (args : list value) : M value :=
  if String.eqb b "len" then
    match args with
    | [ VList vs ] => ret (VInt (Z.of_nat (length vs)))
    | _ => raise (Unsupported "len")
    end
  else if String.eqb b "range" then
    match args with
    | [ VInt lo; VInt hi ] => ret (VList (VInt <$> seqZ lo (hi - lo)))
    | _ => raise (Unsupported "range")
    end
  else if String.eqb b "slice" then
    match args with
    | [ lo; hi ] => ret (VSlice lo hi)
    | _ => raise (Unsupported "slice")
    end
  else raise (NameError b).

Definition call_method (g : graph) (attrs : list (string * value)) (name : string)
    (args : list value) (kws : list (string * value)) : M value :=
  if String.eqb name "astype" then
    match args, kws with
    | [ VStr dtype ], [] => operation (Astype g dtype)
    | _, _ => raise (TypeError "astype")
    end
  else if String.eqb name "sel" then
    let ixs := List.filter (fun kv => negb (String.eqb (fst kv) "method")) kws in
    match args, assoc "method" kws, mapM (fun kv => pair (fst kv) <$> as_indexer (snd kv)) ixs with
    | [], None, Some ix => operation (Sel g ix None)
    | [], Some (VStr m), Some ix => operation (Sel g ix (Some m))
    | _, _, _ => raise (TypeError "sel")
    end
  else if String.eqb name "compute" then
    match args, kws with
    | [], [] => operation (Compute g)
    | _, _ => raise (TypeError "compute")
    end
  else if String.eqb name "groupby" then
    match args, kws with
    | [ VStr field ], [] => operation (GroupBy g field)
    | _, _ => raise (TypeError "groupby")
    end
  else if String.eqb name "resample" then
    match args, kws with
    | [], [ (dim, VStr freq) ] => operation (Resample g dim freq)
    | _, _ => raise (TypeError "resample")
    end
  else if String.eqb name "plot" then
    library (EvPlot "xarray.DataArray" "plot" (VXarray g attrs :: args) kws) ;; ret VNone
  else
    match reducer_of name, args, kws with
    | Some r, [ VStr dim ], [] => operation (Reduce r g dim)
    | Some r, [], [ ("dim", VStr dim) ] => operation (Reduce r g dim)
    | Some _, _, _ => raise (TypeError name)
    | None, _, _ => raise (AttributeError name)
    end.

Definition apply (f : value) (args : list value) (kws : list (string * value)) : M value :=
  match f with
  | VBuiltin b => call_builtin b args
  | VFunction m name =>
      if String.eqb m "xarray" && String.eqb name "open_dataset" then
        match args with
        | [ VStr url ] => library (EvOpen url kws) ;; ret (VXarray (Open url) [])
        | _ => raise (TypeError "open_dataset")
        end
      else if String.eqb m "datetime" && String.eqb name "time" then
        match args, kws with
        | [], [] => ret VTime
        | _, _ => raise (Unsupported "datetime.time")
        end
      else if existsb (String.eqb m) plotting_modules then
        library (EvPlot m name args kws) ;; ret VNone
      else raise (Unsupported m)
  | VMethod g attrs name => call_method g attrs name args kws
  | _ => raise (TypeError "not callable")
  end.

Definition arith_of (op : binop) : arith :=
  match op with Sub => ASub | Mult => AMult | Div => ADiv end.

(** Expressions.  The callee is evaluated first, then the positional and the
    keyword arguments, left to right. *)
Fixpoint eval (e : expr) : M value :=
  match e with
  | Name x => lookup_name x
  | Str s => ret (VStr s)
  | Int n => ret (VInt n)
  | Float l => ret (VFloat l)
  | NoneLit => ret VNone
  | TrueLit => ret (VBool true)
  | Attribute o a => do v <- eval o; get_attr v a
  | Subscript o i => do v <- eval o; do k <- eval i; get_item v k
  | Call f args kws =>
      do fv <- eval f;
      do avs <- each eval args;
      do kvs <- each (fun '(k, a) =>
                        do v <- eval a;
                        from_option (TypeError "keywords") (keyword_items k v)) kws;
      apply fv avs (concat kvs)
  | ListLit es => do vs <- each eval es; ret (VList vs)
  | TupleLit es => do vs <- each eval es; ret (VTuple vs)
  | DictLit items =>
      do kvs <- each (fun '(k, v) => do a <- eval k; do b <- eval v; ret (a, b)) items;
      ret (VDict kvs)
  | BinOp l op r => do a <- eval l; do b <- eval r; binary (arith_of op) a b
  | CompareEq l r => do a <- eval l; do b <- eval r; binary AEq a b
  | JoinedStr parts =>
      do ss <- each (fun part => do v <- eval part; format_part v) parts;
      ret (VStr (String.concat "" ss))
  | ListComp elt gens =>
      do vs <- scoped (comprehension (eval elt)
                         (List.map (fun '(x, it) => (x, eval it)) gens));
      ret (VList vs)
  end.

(** An assignment to a name binds it; an assignment to [x.attrs[k]] updates
    the attributes of the object bound to [x]. *)
Definition assign (target : expr) (v : value) : M unit :=
  match target with
  | Name x => set_name x v
  | Subscript (Attribute (Name x) a) k =>
      if String.eqb a "attrs" then
        do key <- eval k;
        do obj <- lookup_name x;
        match key, obj with
        | VStr name, VXarray g attrs => set_name x (VXarray g (set_assoc name v attrs))
        | _, _ => raise (Unsupported "assignment")
        end
      else raise (Unsupported "assignment")
  | _ => raise (Unsupported "assignment")
  end.

Definition import (module : string) (asname : option string) : M unit :=
  set_name (default module asname) (VModule module).

Fixpoint exec (c : stmt) : M unit :=
  match c with
  | Import m asname => import m asname
  | Magic _ => ret tt
  | Comment _ => ret tt
  | Assign target e => do v <- eval e; assign target v
  | Expr e => eval e ;; ret tt
  | For x it body =>
      do seq <- eval it;
      do items <- items_of seq;
      block (fun v => set_name x v ;; block exec body) items
  | If test body orelse =>
      do v <- eval test;
      do b <- truth v;
      if b then block exec body else block exec orelse
  | While test body =>
      while_loop (do v <- eval test; truth v) (block exec body) fuel
  | Try body handler => catch (block exec body) (block exec handler)
  | Raise e => do v <- eval e;
               match v with
               | VStr msg => raise (Failure msg)
               | _ => raise (Unsupported "raise")
               end
  end.

Definition exec_block (cs : list stmt) : M unit := block exec cs.

End Run.

(** A run in which no library call fails. *)
Definition no_failure : nat -> option exn := fun _ => None.

(** A run in which the [n]-th library call raises [e]. *)
Definition failing (n : nat) (e : exn) : nat -> option exn :=
  fun k => if Nat.eqb k n then Some e else None.

(** Restart-and-run-all: the code cells in file order, from an empty
    namespace. *)
Definition run (plan : nat -> option exn) (nb : Notebook.notebook) : outcome unit :=
  exec_block plan 0 (Notebook.program nb) initial.

Definition final_state {A} (o : outcome A) : state :=
  match o with Ok _ s => s | Raised _ s => s end.

Definition raised {A} (o : outcome A) : option exn :=
  match o with Ok _ _ => None | Raised e _ => Some e end.

Definition trace_of (nb : Notebook.notebook) : list event :=
  trace (final_state (run no_failure nb)).

Definition value_of (nb : Notebook.notebook) (x : string) : option value :=
  env (final_state (run no_failure nb)) !! x.

(** A computation is local when it makes its library calls in order and
    looks at the plan only for the calls it makes: two plans that agree on
    those calls give the same outcome. *)
Definition local {A} (m : (nat -> option exn) -> M A) : Prop :=
  forall p s,
    calls s <= calls (final_state (m p s)) /\
    forall q,
      (forall k, calls s <= k < calls (final_state (m p s)) -> p k = q k) ->
      m q s = m p s.

End Eval.

(** ** What the recorded runs are checked for *)

Module Pipeline.
Import Py Lazy Eval.

(** The notebooks under [src/]. *)
Definition notebooks : list Notebook.notebook := [ Floods.cells; Era5.cells ].

(** *** Shapes of arrays *)

(** The dimensions of the data variables the notebooks read ([tp], [t2m]):
    the axes their selections name. *)
Definition data_dims : list string := [ "valid_time"; "latitude"; "longitude" ].

(** [before_dot "valid_time.month" = "valid_time"] and
    [after_dot "valid_time.month" = "month"]. *)
Fixpoint before_dot (s : string) : string :=
  match s with
  | EmptyString => EmptyString
  | String c s' => if Ascii.eqb c "."%char then EmptyString else String c (before_dot s')
  end.

Fixpoint after_dot (s : string) : string :=
  match s with
  | EmptyString => EmptyString
  | String c s' => if Ascii.eqb c "."%char then s' else after_dot s'
  end.

(** A number picks one label and removes the axis; a slice, a list, a mask or
    a date string keeps it. *)
Definition picks_point (i : indexer) : bool :=
  match i with
  | IAtom (AInt _) | IAtom (AFloat _) => true
  | _ => false
  end.

Fixpoint dims (g : graph) : list string :=
  match g with
  | Open _ => []
  | Variable_ _ _ => data_dims
  | Astype a _ => dims a
  | Const _ => []
  | Arith _ l r => dims l ++ List.filter (fun d => negb (existsb (String.eqb d) (dims l))) (dims r)
  | Coord _ name => [ before_dot name ]
  | Sel a ix _ =>
      List.filter (fun d => match assoc d ix with
                       | Some i => negb (picks_point i)
                       | None => true
                       end) (dims a)
  | Compute a => dims a
  | Reduce _ a dim =>
      match a with
      | GroupBy a' field =>
          (fun d => if String.eqb d dim then after_dot field else d) <$> dims a'
      | Resample a' _ _ => dims a'
      | _ => List.filter (fun d => negb (String.eqb d dim)) (dims a)
      end
  | GroupBy a _ => dims a
  | Group g' _ => dims g'
  | Resample a _ _ => dims a
  end.

Definition is_array (g : graph) : bool :=
  match kind_of g with KArray => true | _ => false end.

(** A time series: an array along [valid_time] only. *)
Definition is_series (g : graph) : bool :=
  is_array g && bool_decide (dims g = [ "valid_time" ]).

(** A reduced array: the time axis has been aggregated away. *)
Definition is_reduced (g : graph) : bool :=
  is_array g && Nat.eqb (stage g) 4 && negb (existsb (String.eqb "valid_time") (dims g)).

(** *** The arrays a call receives *)

Fixpoint graphs_of (v : value) : list graph :=
  match v with
  | VXarray g _ => [ g ]
  | VList vs | VTuple vs => flat_map graphs_of vs
  | VDict items => flat_map (fun kv => graphs_of (snd kv)) items
  | _ => []
  end.

Definition plotted (args : list value) (kws : list (string * value)) : list graph :=
  flat_map graphs_of args ++ flat_map (fun kv => graphs_of (snd kv)) kws.

(** *** Steps of the pipeline *)

Definition is_open (ev : event) : bool :=
  match ev with EvOpen _ _ => true | _ => false end.

Definition is_select (ev : event) : bool :=
  match ev with EvOp (Sel _ _ _) => true | _ => false end.

Definition is_compute (ev : event) : bool :=
  match ev with EvOp (Compute _) => true | _ => false end.

(** The aggregate reductions: [sum], [mean], [std], [groupby], [resample]. *)
Definition is_reduction (ev : event) : bool :=
  match ev with
  | EvOp (Reduce _ _ _) | EvOp (GroupBy _ _) | EvOp (Resample _ _ _) => true
  | _ => false
  end.

Definition is_plot (ev : event) : bool :=
  match ev with EvPlot _ _ _ _ => true | _ => false end.

(** The operand of a graph operation. *)
Definition operand (ev : event) : option graph :=
  match ev with
  | EvOp (Sel a _ _) | EvOp (Compute a) | EvOp (Reduce _ a _)
  | EvOp (GroupBy a _) | EvOp (Resample a _ _) => Some a
  | _ => None
  end.

(** A step is in the order open, select, materialize, reduce, present when it
    meets its operand at the stage just before its own: a selection is applied
    to what is opened or selected, [.compute()] to a selection, a reduction to
    what is materialized, and a plot receives reduced arrays. *)
Definition step_in_order (ev : event) : bool :=
  match ev with
  | EvOpen _ _ => true
  | EvOp (Sel a _ _) => (1 <=? stage a)%nat && (stage a <=? 2)%nat
  | EvOp (Compute a) => Nat.eqb (stage a) 2
  | EvOp (Reduce _ a _) | EvOp (GroupBy a _) | EvOp (Resample a _ _) => (3 <=? stage a)%nat
  | EvOp _ => true
  | EvPlot _ _ args kws => forallb (fun g => Nat.eqb (stage g) 4) (plotted args kws)
  end.

Definition opens_first (tr : list event) : bool :=
  match tr with
  | ev :: _ => is_open ev
  | [] => false
  end.

Definition pipeline_in_order (tr : list event) : bool :=
  opens_first tr && forallb step_in_order tr.

(** The same order, with selections allowed at any stage after opening. *)
Definition step_in_order_sel_anywhere (ev : event) : bool :=
  match ev with
  | EvOp (Sel a _ _) => (1 <=? stage a)%nat
  | _ => step_in_order ev
  end.

Definition pipeline_in_order_sel_anywhere (tr : list event) : bool :=
  opens_first tr && forallb step_in_order_sel_anywhere tr.

(** *** Data transfer *)

(** [chunks={}] asks for dask-backed, lazily loaded variables. *)
Definition opens_lazily (ev : event) : bool :=
  match ev with
  | EvOpen _ kws => match assoc "chunks" kws with
                    | Some (VDict []) => true
                    | _ => false
                    end
  | _ => true
  end.

(** Modelled from the spec: the lazy loading that the notebooks delegate to
    xarray and dask, which are not part of the repository.  Opening a store
    retrieves only metadata; selections and the other graph operations are
    non-materializing; array data is moved when values of a graph that is not
    resident have to be produced, by [.compute()] or by a plot (the notebooks'
    own text: the computation takes place when [.compute()] or [.plot()] is
    called). *)
Definition transfers (ev : event) : bool :=
  match ev with
  | EvOpen _ _ => false
  | EvOp (Compute a) => negb (in_memory a)
  | EvOp _ => false
  | EvPlot _ _ args kws => existsb (fun g => negb (in_memory g)) (plotted args kws)
  end.

End Pipeline.

(** ** Control structure of the cells *)

Module Structure.
Import Py Notebook.

(** A statement with every statement nested in it. *)
Fixpoint statements (c : stmt) : list stmt :=
  c :: match c with
       | For _ _ body | While _ body => flat_map statements body
       | If _ body orelse | Try body orelse =>
           flat_map statements body ++ flat_map statements orelse
       | _ => []
       end.

Definition all_statements (cs : list stmt) : list stmt := flat_map statements cs.

Definition is_for (c : stmt) : bool := match c with For _ _ _ => true | _ => false end.
Definition is_while (c : stmt) : bool := match c with While _ _ => true | _ => false end.
Definition is_if (c : stmt) : bool := match c with If _ _ _ => true | _ => false end.
Definition is_try (c : stmt) : bool := match c with Try _ _ => true | _ => false end.
Definition is_raise (c : stmt) : bool := match c with Raise _ => true | _ => false end.

(** Loops and conditionals. *)
Definition is_control (c : stmt) : bool := is_for c || is_while c || is_if c || is_try c.

(** A block is straight-line when no statement in it, at any depth, is a loop
    or a conditional. *)
Definition straight_line (cs : list stmt) : bool :=
  forallb (fun c => negb (is_control c)) (all_statements cs).

(** A block handles no error when it has no [try] to catch one, no [raise] to
    replace one and no [while] to try again. *)
Definition handler_free (cs : list stmt) : bool :=
  forallb (fun c => negb (is_try c || is_raise c || is_while c)) (all_statements cs).

Definition count (p : stmt -> bool) (cs : list stmt) : nat :=
  length (List.filter p (all_statements cs)).

(** The expressions a statement holds directly. *)
Definition expressions (c : stmt) : list expr :=
  match c with
  | Assign t v => [ t; v ]
  | Expr e | Raise e => [ e ]
  | For _ e _ | If e _ _ | While e _ => [ e ]
  | _ => []
  end.

(** An expression with every expression nested in it, outermost first. *)
Fixpoint subexpressions (e : expr) : list expr :=
  e :: match e with
       | Name _ | Str _ | Int _ | Float _ | NoneLit | TrueLit => []
       | Attribute o _ => subexpressions o
       | Subscript o i => subexpressions o ++ subexpressions i
       | Call f args kws =>
           subexpressions f ++ flat_map subexpressions args
           ++ flat_map (fun '(_, a) => subexpressions a) kws
       | ListLit es | TupleLit es | JoinedStr es => flat_map subexpressions es
       | DictLit items =>
           flat_map (fun '(k, v) => subexpressions k ++ subexpressions v) items
       | BinOp l _ r | CompareEq l r => subexpressions l ++ subexpressions r
       | ListComp elt gens =>
           subexpressions elt ++ flat_map (fun '(_, it) => subexpressions it) gens
       end.

Definition all_expressions (cs : list stmt) : list expr :=
  flat_map subexpressions (flat_map expressions (all_statements cs)).

Definition is_comprehension (e : expr) : bool :=
  match e with ListComp _ _ => true | _ => false end.

Definition count_comprehensions (cs : list stmt) : nat :=
  length (List.filter is_comprehension (all_expressions cs)).

(** The functions of the module bound to [m] that the text calls, [m.f(...)],
    in the order of the text. *)
Definition module_calls (m : string) (cs : list stmt) : list string :=
  flat_map (fun e => match e with
                     | Call (Attribute (Name x) f) _ _ =>
                         if String.eqb x m then [ f ] else []
                     | _ => []
                     end) (all_expressions cs).

(** What a code cell keeps from an earlier run: its execution count and its
    outputs. *)
Definition stores_nothing (c : cell) : bool :=
  match c with
  | Markdown _ => true
  | Code _ None [] _ => true
  | Code _ _ _ _ => false
  end.

Definition cell_id (c : cell) : string :=
  match c with Markdown id => id | Code id _ _ _ => id end.

(** The ids of the code cells that are not straight-line. *)
Definition branching_cells (nb : notebook) : list string :=
  cell_id <$> List.filter (fun c => negb (straight_line (source_of c))) (code_cells nb).

End Structure.

(** ** Selections and transports *)

Module Access.
Import Lazy Eval Pipeline.

(** The forms of selection: a geographic bounding box, a nearest-point lookup,
    a date range given as a slice or as a list of dates, a filter on a
    calendar field, and a date given as one string ([2023], [2023-10]). *)
Inductive form := BoundingBox | NearestPoint | DateRange | CalendarField | DateString.

Definition spatial (d : string) : bool :=
  String.eqb d "latitude" || String.eqb d "longitude".

Definition is_slice (i : indexer) : bool :=
  match i with ISlice _ _ => true | _ => false end.

Definition is_month_test (m : graph) : bool :=
  match m with
  | Arith AEq (Coord _ field) (Const (AInt _)) => String.eqb field "valid_time.month"
  | _ => false
  end.

Definition form_of (ix : list (string * indexer)) (method : option string) : option form :=
  match method, ix with
  | _, [] => None
  | Some m, _ =>
      if String.eqb m "nearest"
         && forallb (fun di => spatial (fst di) && picks_point (snd di)) ix
      then Some NearestPoint else None
  | None, [ (d, i) ] =>
      if spatial d && is_slice i then Some BoundingBox
      else if String.eqb d "valid_time" then
        match i with
        | ISlice _ _ | IList _ => Some DateRange
        | IMask m => if is_month_test m then Some CalendarField else None
        | IAtom (AStr _) => Some DateString
        | IAtom _ => None
        end
      else None
  | None, _ =>
      if forallb (fun di => spatial (fst di) && is_slice (snd di)) ix
      then Some BoundingBox else None
  end.

(** The four forms the specification lists. *)
Definition listed (f : form) : bool :=
  match f with
  | BoundingBox | NearestPoint | DateRange | CalendarField => true
  | DateString => false
  end.

(** The form of the selection an event makes, for the events that select:
    [.sel(...)], and [.groupby(field)] on a field of the time axis. *)
Definition selection (ev : event) : option (option form) :=
  match ev with
  | EvOp (Sel _ ix method) => Some (form_of ix method)
  | EvOp (GroupBy _ field) =>
      Some (if String.prefix "valid_time." field then Some CalendarField else None)
  | _ => None
  end.

Definition selects_in_listed_form (ev : event) : bool :=
  match selection ev with
  | Some (Some f) => listed f
  | Some None => false
  | None => true
  end.

Definition selects_in_known_form (ev : event) : bool :=
  match selection ev with
  | Some (Some _) => true
  | Some None => false
  | None => true
  end.

(** A selection leaves the data where it is: its result is resident exactly
    when its operand is. *)
Definition keeps_residency (ev : event) : bool :=
  match ev with
  | EvOp (Sel a ix m) => eqb (in_memory (Sel a ix m)) (in_memory a)
  | EvOp (GroupBy a f) => eqb (in_memory (GroupBy a f)) (in_memory a)
  | _ => true
  end.

Inductive transport := Https | S3.

Definition transport_of (url : string) : option transport :=
  if String.prefix "https://" url then Some Https
  else if String.prefix "s3://" url then Some S3
  else None.

(** [storage_options={"client_kwargs": {"trust_env": True}}]: the HTTP client
    takes its credentials from the environment, that is from [~/.netrc]. *)
Definition dict_item (k : string) (v : value) : option value :=
  match v with
  | VDict items =>
      snd <$> List.find (fun kv => match fst kv with
                                   | VStr s => String.eqb s k
                                   | _ => false
                                   end) items
  | _ => None
  end.

Definition trusts_env (kws : list (string * value)) : bool :=
  match assoc "storage_options" kws with
  | Some options =>
      match dict_item "client_kwargs" options with
      | Some client =>
          match dict_item "trust_env" client with
          | Some (VBool true) => true
          | _ => false
          end
      | None => false
      end
  | None => false
  end.

Definition opened (tr : list event) : list (string * list (string * value)) :=
  flat_map (fun ev => match ev with EvOpen url kws => [ (url, kws) ] | _ => [] end) tr.

(** An opening is over one of the two transports; over HTTPS it takes the
    credentials from the environment. *)
Definition transport_ok (o : string * list (string * value)) : bool :=
  match transport_of (fst o) with
  | Some Https => trusts_env (snd o)
  | Some S3 => true
  | None => false
  end.

(** The calls into the plotting helper. *)
Definition display_calls (tr : list event) : list (string * list value) :=
  flat_map (fun ev => match ev with
                      | EvPlot m f args _ =>
                          if String.eqb m "display" then [ (f, args) ] else []
                      | _ => []
                      end) tr.

(** [map(array)], [maps(list_of_arrays)], [compare(series_a, series_b)]. *)
Definition display_call_ok (c : string * list value) : bool :=
  let '(f, args) := c in
  if String.eqb f "map" then
    match args with
    | [ VXarray g _ ] => is_reduced g
    | _ => false
    end
  else if String.eqb f "maps" then
    match args with
    | [ VList (v :: vs) ] =>
        forallb (fun a => match a with VXarray g _ => is_array g | _ => false end) (v :: vs)
    | _ => false
    end
  else if String.eqb f "compare" then
    match args with
    | [ VXarray a _; VXarray b _ ] => is_series a && is_series b
    | _ => false
    end
  else false.

End Access.

(** ** The September average of the floods notebook *)

Module September.
Import Lazy Eval.

(** The reference period as the specification words it: the dates
    [YYYY-09-DD] for the years 1991 to 2020 and the days 01 to 30, all the days
    of a year before the next year. *)
Definition two_digits (n : nat) : string :=
  if (n <? 10)%nat then "0" +:+ pretty n else pretty n.

Definition september_date (year day : nat) : string :=
  pretty year +:+ "-09-" +:+ two_digits day.

Definition reference_years : list nat := seq 1991 30.
Definition reference_days : list nat := seq 1 30.

Definition reference_dates : list string :=
  flat_map (fun y => september_date y <$> reference_days) reference_years.

(** The Greece selection of the floods notebook, before any date is chosen. *)
Definition tp_greece : graph :=
  Sel (Variable_
         (Astype (Open "s3://ecmwf-era5-land/reanalysis-era5-land-no-antartica-v0.zarr")
                 "float32")
         "tp")
      [ ("latitude", ISlice (AInt 41) (AInt 34));
        ("longitude", ISlice (AInt 19) (AInt 28)) ]
      None.

(** What the notebook leaves in [tp_greece_september_1991_2020_average]. *)
Definition september_average : graph :=
  Arith AMult
    (Arith ADiv
       (Reduce Sum
          (Compute (Sel tp_greece [ ("valid_time", IList (AStr <$> reference_dates)) ] None))
          "valid_time")
       (Const (AInt 30)))
    (Const (AInt 1000)).

Section Meaning.

(** Numbers with the arithmetic of the arrays, grid cells, and the content of
    the array a date selection is applied to: [view t c] is its value at the
    time step labelled [t] in the grid cell [c]. *)
Context {num cell : Type}.
Variables (zero : num) (add sub mul div : num -> num -> num) (of_Z : Z -> num).
Variable view : string -> cell -> num.

Inductive data :=
| Steps (fs : list (cell -> num))      (* one field per time step *)
| Field (f : cell -> num)
| Scalar (x : num).

Definition operator (op : arith) : option (num -> num -> num) :=
  match op with
  | ASub => Some sub
  | AMult => Some mul
  | ADiv => Some div
  | AEq => None
  end.

(** Arithmetic is elementwise; a scalar is broadcast over the cells. *)
Definition elementwise (f : num -> num -> num) (l r : data) : option data :=
  match l, r with
  | Scalar x, Scalar y => Some (Scalar (f x y))
  | Field a, Scalar y => Some (Field (fun c => f (a c) y))
  | Scalar x, Field b => Some (Field (fun c => f x (b c)))
  | Field a, Field b => Some (Field (fun c => f (a c) (b c)))
  | Steps fs, Scalar y => Some (Steps ((fun a c => f (a c) y) <$> fs))
  | _, _ => None
  end.

Definition step_of (a : atom) : option (cell -> num) :=
  match a with
  | AStr t => Some (view t)
  | _ => None
  end.

(** The values of a graph built from a selection of dates by label, a sum
    over the time axis and arithmetic with integers; [None] outside that
    fragment. *)
Fixpoint denote (g : graph) : option data :=
  match g with
  | Sel _ [ (dim, IList labels) ] None =>
      if String.eqb dim "valid_time" then Steps <$> mapM step_of labels else None
  | Compute a => denote a
  | Reduce Sum a dim =>
      match denote a with
      | Some (Steps fs) =>
          if String.eqb dim "valid_time"
          then Some (Field (fun c => fold_left add ((fun f => f c) <$> fs) zero))
          else None
      | _ => None
      end
  | Const (AInt n) => Some (Scalar (of_Z n))
  | Arith op l r =>
      match operator op, denote l, denote r with
      | Some f, Some a, Some b => elementwise f a b
      | _, _, _ => None
      end
  | _ => None
  end.

Definition at_cell (d : option data) (c : cell) : option num :=
  match d with
  | Some (Field f) => Some (f c)
  | _ => None
  end.

End Meaning.

End September.

(** ** Arrays the notebooks name *)

Module Named.
Import Lazy.

(** [tp_hinterland_location], before [.compute()]. *)
Definition tp_hinterland_location : graph :=
  Sel (Variable_
         (Astype (Open "s3://ecmwf-era5-land/reanalysis-era5-land-no-antartica-v0.zarr")
                 "float32")
         "tp")
      [ ("latitude", IAtom (AFloat "39.25")); ("longitude", IAtom (AFloat "21.9")) ]
      (Some "nearest").

(** [t2m], in degrees Celsius. *)
Definition t2m : graph :=
  Arith ASub
    (Astype
       (Variable_
          (Open "https://earthdatahub.com/stores/ecmwf-era5-single-levels/reanalysis-era5-single-levels.zarr")
          "t2m")
       "float32")
    (Const (AFloat "273.15")).

Definition t2m_germany_area : graph :=
  Sel t2m
      [ ("latitude", ISlice (AInt 55) (AInt 47)); ("longitude", ISlice (AInt 5) (AInt 16)) ]
      None.

(** [t2m_Berlin], before [.compute()]. *)
Definition t2m_Berlin : graph :=
  Sel t2m
      [ ("latitude", IAtom (AFloat "52.5")); ("longitude", IAtom (AFloat "13.4")) ]
      (Some "nearest").

End Named.

(** ** The catalog as an index *)

Module CatalogIndex.
Import Catalog.

(** The names of the members of an object, in file order. *)
Definition member_names (e : json) : list string :=
  match e with
  | JObject ms => fst <$> ms
  | _ => []
  end.

Definition has_id (id : string) (e : json) : bool :=
  match string_member "id" e with
  | Some i => String.eqb i id
  | None => false
  end.

(** The entry a reader of the catalog finds under an id: the first with it. *)
Definition entry_of (id : string) : option json := List.find (has_id id) entries.

Definition same_dataset (e e' : json) : bool :=
  match string_member "dataset" e, string_member "dataset" e' with
  | Some d, Some d' => String.eqb d d'
  | _, _ => false
  end.

(** Whether the dataset tag of an entry is also the tag of another entry. *)
Definition shares_dataset (e : json) : bool :=
  (1 <? length (List.filter (same_dataset e) entries))%nat.

(** [contains needle hay]: [needle] occurs in [hay]. *)
Fixpoint contains (needle hay : string) : bool :=
  String.prefix needle hay
  || match hay with
     | EmptyString => false
     | String _ hay' => contains needle hay'
     end.

(** Whether a store URL names the dataset of an entry. *)
Definition names_dataset_of (url : string) (e : json) : bool :=
  match string_member "dataset" e with
  | Some d => contains d url
  | None => false
  end.

(** The ids of the entries whose dataset a store URL names. *)
Definition entries_for (url : string) : list (option string) :=
  string_member "id" <$> List.filter (names_dataset_of url) entries.

End CatalogIndex.

(** ** What the notebooks compute and plot *)

Module Plots.
Import Lazy Eval Pipeline.

(** The [.compute()] nodes inside a graph, outermost first. *)
Fixpoint computes_in (g : graph) : list graph :=
  match g with
  | Open _ | Const _ => []
  | Variable_ a _ | Astype a _ | Coord a _ | Reduce _ a _ | GroupBy a _
  | Group a _ | Resample a _ _ => computes_in a
  | Arith _ l r => computes_in l ++ computes_in r
  | Sel a ix _ =>
      computes_in a
      ++ flat_map (fun di => match snd di with
                             | IMask m => computes_in m
                             | _ => []
                             end) ix
  | Compute a => Compute a :: computes_in a
  end.

(** The axes that selections have narrowed below a graph; a mask counts for
    the axis it is given for, not for what it is computed from. *)
Fixpoint narrowed (g : graph) : list string :=
  match g with
  | Open _ | Const _ => []
  | Variable_ a _ | Astype a _ | Coord a _ | Reduce _ a _ | GroupBy a _
  | Group a _ | Resample a _ _ | Compute a => narrowed a
  | Arith _ l r => narrowed l ++ narrowed r
  | Sel a ix _ => (fst <$> ix) ++ narrowed a
  end.

(** The dtypes that [.astype] has cast to below a graph. *)
Fixpoint casts (g : graph) : list string :=
  match g with
  | Open _ | Const _ => []
  | Variable_ a _ | Coord a _ | Reduce _ a _ | GroupBy a _
  | Group a _ | Resample a _ _ | Compute a | Sel a _ _ => casts a
  | Astype a dtype => dtype :: casts a
  | Arith _ l r => casts l ++ casts r
  end.

(** The scalars that arithmetic has combined an array with, below a graph,
    each with its operator. *)
Fixpoint scalings (g : graph) : list (arith * atom) :=
  match g with
  | Open _ | Const _ => []
  | Variable_ a _ | Astype a _ | Coord a _ | Reduce _ a _ | GroupBy a _
  | Group a _ | Resample a _ _ | Compute a | Sel a _ _ => scalings a
  | Arith op l (Const c) => (op, c) :: scalings l
  | Arith _ l r => scalings l ++ scalings r
  end.

Definition computed (tr : list event) : list graph :=
  flat_map (fun ev => match ev with EvOp (Compute a) => [ a ] | _ => [] end) tr.

Definition mem (x : string) (l : list string) : bool := existsb (String.eqb x) l.

(** What is fetched is cut down first: in space, on both horizontal axes, and
    in time unless it is the series of one point. *)
Definition cut_down (a : graph) : bool :=
  mem "latitude" (narrowed a) && mem "longitude" (narrowed a)
  && (mem "valid_time" (narrowed a) || is_series a).

(** The calls of one function of a module, with their arguments. *)
Definition calls_of (m f : string) (tr : list event)
  : list (list value * list (string * value)) :=
  flat_map (fun ev => match ev with
                      | EvPlot m' f' args kws =>
                          if String.eqb m' m && String.eqb f' f then [ (args, kws) ] else []
                      | _ => []
                      end) tr.

(** A scatter call, as the month it is drawn at and the legend label it is
    given. *)
Definition scatter_point (c : list value * list (string * value))
  : option value * option value :=
  (head (fst c), assoc "label" (snd c)).

(** The month a scatter call's point was selected for: the number its
    [valid_time.month] mask compares with. *)
Definition selected_month (c : list value * list (string * value)) : option Z :=
  match fst c with
  | [ _; VXarray (Sel _ [ (_, IMask (Arith AEq (Coord _ _) (Const (AInt m)))) ] None) _ ] =>
      Some m
  | _ => None
  end.

(** The arrays a call is handed in a positional argument: the argument, or
    its elements when it is a list. *)
Definition arrays_of (v : value) : list value :=
  match v with
  | VList vs => vs
  | _ => [ v ]
  end.

Definition positional (c : list value * list (string * value)) : list value :=
  flat_map arrays_of (fst c).

(** An array in millimetres: multiplied by 1000 last, with [units] assigned
    [mm]. *)
Definition in_millimetres (v : value) : bool :=
  match v with
  | VXarray (Arith AMult _ (Const (AInt 1000))) [ ("units", VStr u) ] => String.eqb u "mm"
  | _ => false
  end.

(** An array as it comes from the store: combined with no scalar, with no
    attribute assigned. *)
Definition unscaled (v : value) : bool :=
  match v with
  | VXarray g [] => match scalings g with [] => true | _ => false end
  | _ => false
  end.

(** The graph of [tp_greece_storm_daniel_sum]. *)
Definition storm_daniel_sum : graph :=
  Arith AMult
    (Reduce Sum
       (Compute (Sel September.tp_greece
                     [ ("valid_time", IList [ AStr "2023-09-06"; AStr "2023-09-07" ]) ] None))
       "valid_time")
    (Const (AInt 1000)).

(** The two series of the floods notebook, at the location, at midnight. *)
Definition daily_total (period : indexer) : graph :=
  Group (GroupBy (Sel (Compute Named.tp_hinterland_location) [ ("valid_time", period) ] None)
                 "valid_time.time")
        ATime.

(** The Berlin statistics of the ERA5 notebook: the computed series of the
    point, restricted to a period. *)
Definition berlin (period : indexer) : graph :=
  Sel (Compute Named.t2m_Berlin) [ ("valid_time", period) ] None.

Definition climatology (r : reducer) : graph :=
  Reduce r (GroupBy (berlin (ISlice (AStr "1981") (AStr "2010"))) "valid_time.month")
         "valid_time".

Definition monthly_means_2023 : graph :=
  Reduce Mean (Resample (berlin (IAtom (AStr "2023"))) "valid_time" "1M") "valid_time".

(** The two maps the anomaly of the ERA5 notebook is the difference of. *)
Definition october_2023_mean : graph :=
  Reduce Mean
    (Compute (Sel Named.t2m_germany_area [ ("valid_time", IAtom (AStr "2023-10")) ] None))
    "valid_time".

Definition octobers_1981_2010_mean : graph :=
  Reduce Mean
    (Compute
       (Sel (Sel Named.t2m_germany_area
                 [ ("valid_time",
                    IMask (Arith AEq (Coord Named.t2m_germany_area "valid_time.month")
                                 (Const (AInt 10)))) ] None)
            [ ("valid_time", ISlice (AStr "1981") (AStr "2010")) ] None))
    "valid_time".

End Plots.

(** ** Runs that stop early *)

Module Truncation.
Import Py Eval Structure.

(** A computation truncates when a failure plan can only cut it short: it
    records calls in addition to those already recorded, and under any plan
    it either does what it does when nothing fails, or stops with an
    exception of the plan having recorded no call that the failure-free run
    does not record, in the same order. *)
Definition truncates {A} (m : (nat -> option exn) -> M A) : Prop :=
  forall p s,
    trace s `prefix_of` trace (final_state (m p s)) /\
    (m p s = m no_failure s \/
     exists e s',
       m p s = Raised e s' /\
       (exists k, p k = Some e) /\
       trace s' `prefix_of` trace (final_state (m no_failure s))).

(** No [try] at any depth. *)
Definition try_free (cs : list stmt) : bool :=
  forallb (fun c => negb (is_try c)) (all_statements cs).

End Truncation.

(** * Properties *)

(** ** The catalog *)

Lemma strip_suffix_app (suf s stem : string) :
  Catalog.strip_suffix suf s = Some stem -> s = stem +:+ suf.
Proof.
  revert stem. induction s as [|c s IH]; intros stem; cbn [Catalog.strip_suffix].
  - destruct (String.eqb_spec "" suf) as [<-|_]; [|discriminate].
    intros [= <-]. reflexivity.
  - destruct (String.eqb_spec (String c s) suf) as [<-|_].
    + intros [= <-]. reflexivity.
    + destruct (Catalog.strip_suffix suf s) as [stem'|] eqn:E; [|discriminate].
      cbn. intros [= <-]. change (String c s = String c (stem' +:+ suf)).
      f_equal. apply IH. reflexivity.
Qed.

Lemma export_matches_source_spec (e : Catalog.json) :
  Catalog.export_matches_source e = true ->
  exists stem,
    Catalog.string_member "source" e = Some (stem +:+ ".ipynb") /\
    Catalog.string_member "export" e = Some (stem +:+ ".html").
Proof.
  unfold Catalog.export_matches_source, Catalog.html_of_ipynb.
  destruct (Catalog.string_member "source" e) as [src|]; [|discriminate].
  destruct (Catalog.string_member "export" e) as [exp|]; [|discriminate].
  destruct (Catalog.strip_suffix ".ipynb" src) as [stem|] eqn:E; [|discriminate].
  cbn. intros H. apply String.eqb_eq in H. subst exp.
  exists stem. split; [|reflexivity].
  f_equal. apply strip_suffix_app. exact E.
Qed.

(** C7.  Every entry of [index.json] has an identifier, a title, a
    description, a source path, an exported-HTML path, a thumbnail URL, a
    collection tag and a dataset tag, each a string; no entry omits one. *)
Theorem catalog_entries_complete :
  Forall (fun e =>
            Forall (fun k => is_Some (Catalog.string_member k e))
                   [ "id"; "title"; "description"; "source"; "export";
                     "thumbnail_url"; "collection"; "dataset" ])
         Catalog.entries.
Proof.
  apply Forall_forall. intros e He. apply Forall_forall. intros k Hk.
  assert (Hall : forallb Catalog.complete Catalog.entries = true)
    by (vm_compute; reflexivity).
  rewrite forallb_forall in Hall.
  apply list_elem_of_In in He. apply list_elem_of_In in Hk.
  specialize (Hall e He). unfold Catalog.complete in Hall.
  rewrite forallb_forall in Hall. specialize (Hall k Hk).
  unfold Catalog.has_member in Hall.
  destruct (Catalog.string_member k e); [eexists; reflexivity|discriminate Hall].
Qed.

(** C10.  The catalog has eleven entries; in each, the source path begins with
    [./use-cases/] and ends in [.ipynb], and the export path is the source
    path with [.ipynb] replaced by [.html]. *)
Theorem catalog_export_paths :
  length Catalog.entries = 11 /\
  Forall (fun e =>
            exists stem,
              Catalog.string_member "source" e = Some (stem +:+ ".ipynb") /\
              Catalog.string_member "export" e = Some (stem +:+ ".html") /\
              String.prefix "./use-cases/" (stem +:+ ".ipynb") = true)
         Catalog.entries.
Proof.
  split; [reflexivity|].
  assert (Hb : Forall (fun e => Catalog.export_matches_source e = true /\
                                Catalog.source_in_use_cases e = true) Catalog.entries).
  { unfold Catalog.entries. cbn [Catalog.member Catalog.index_json List.find fst snd fmap option_fmap option_map].
    repeat constructor. }
  eapply Forall_impl; [exact Hb|].
  intros e [Hm Hs]. destruct (export_matches_source_spec e Hm) as (stem & Hsrc & Hexp).
  exists stem. repeat split; try assumption.
  unfold Catalog.source_in_use_cases in Hs. rewrite Hsrc in Hs. exact Hs.
Qed.

(** ** The runs *)

Import Py Notebook Lazy Eval Pipeline Structure Access.

Example html_of_ipynb_example :
  Catalog.html_of_ipynb "./use-cases/eurostats_population.ipynb"
  = Some "./use-cases/eurostats_population.html" /\
  Catalog.html_of_ipynb "./use-cases/eurostats_population.py" = None.
Proof. split; reflexivity. Qed.

Example dotted_names :
  before_dot "valid_time.month" = "valid_time" /\
  after_dot "valid_time.month" = "month" /\
  before_dot "month" = "month".
Proof. repeat split. Qed.

Example transports :
  transport_of "s3://ecmwf-era5-land/reanalysis-era5-land-no-antartica-v0.zarr" = Some S3 /\
  transport_of "https://earthdatahub.com/stores/x.zarr" = Some Https /\
  transport_of "http://earthdatahub.com/stores/x.zarr" = None /\
  transport_of "/data/x.zarr" = None.
Proof. repeat split. Qed.

Example forms :
  form_of [ ("latitude", ISlice (AInt 41) (AInt 34)); ("longitude", ISlice (AInt 19) (AInt 28)) ]
          None = Some BoundingBox /\
  form_of [ ("latitude", IAtom (AFloat "39.25")); ("longitude", IAtom (AFloat "21.9")) ]
          (Some "nearest") = Some NearestPoint /\
  form_of [ ("valid_time", IList [ AStr "2023-09-06"; AStr "2023-09-07" ]) ] None
  = Some DateRange /\
  form_of [ ("valid_time", ISlice (AStr "1981") (AStr "2010")) ] None = Some DateRange /\
  form_of [ ("valid_time",
             IMask (Arith AEq (Coord Named.t2m_germany_area "valid_time.month")
                          (Const (AInt 10)))) ] None = Some CalendarField /\
  form_of [ ("valid_time", IAtom (AStr "2023-10")) ] None = Some DateString /\
  form_of [ ("latitude", IAtom (AFloat "39.25")) ] None = None /\
  form_of [ ("level", ISlice (AInt 1) (AInt 2)) ] None = None.
Proof. repeat split. Qed.

Example shapes :
  dims Named.t2m_germany_area = [ "valid_time"; "latitude"; "longitude" ] /\
  dims (Compute Named.tp_hinterland_location) = [ "valid_time" ] /\
  dims (Reduce Mean (Compute Named.t2m_germany_area) "valid_time")
  = [ "latitude"; "longitude" ] /\
  dims (Reduce Mean (GroupBy (Compute Named.t2m_Berlin) "valid_time.month") "valid_time")
  = [ "month" ] /\
  is_series (Compute Named.tp_hinterland_location) = true /\
  is_series Named.t2m_germany_area = false /\
  is_reduced (Compute Named.t2m_germany_area) = false.
Proof. repeat split. Qed.

(** A plot of an array that was never computed would have to fetch it. *)
Example plot_of_lazy_array_transfers :
  transfers (EvPlot "display" "map" [ VXarray Named.t2m_germany_area [] ] []) = true /\
  transfers (EvPlot "display" "map" [ VXarray (Compute Named.t2m_germany_area) [] ] [])
  = false.
Proof. split; reflexivity. Qed.

(** Both notebooks run to their last cell when no library call fails; the
    floods notebook makes 25 library calls, the ERA5 notebook 80. *)
Lemma floods_runs :
  raised (run no_failure Floods.cells) = None /\
  calls (final_state (run no_failure Floods.cells)) = 25 /\
  length (trace_of Floods.cells) = 25.
Proof. vm_compute. repeat split. Qed.

Lemma era5_runs :
  raised (run no_failure Era5.cells) = None /\
  calls (final_state (run no_failure Era5.cells)) = 80 /\
  length (trace_of Era5.cells) = 80.
Proof. vm_compute. repeat split. Qed.

(** The evaluator's [try] does catch: wrapped in one, a failing [open_dataset]
    would go unnoticed. *)
Example try_swallows_failure :
  let guarded :=
    [ Import "xarray" (Some "xr");
      Try [ Expr (Call (Attribute (Name "xr") "open_dataset") [ Str "s3://bucket/x.zarr" ] []) ]
          [ Assign (Name "ds") NoneLit ] ] in
  raised (exec_block (failing 0 (Failure "no credentials")) 0 guarded initial) = None /\
  handler_free guarded = false.
Proof. vm_compute. split; reflexivity. Qed.

Ltac find_event :=
  repeat first [ left; reflexivity | right ].

(** ** Order of the pipeline *)

(** C1, as stated, fails on the floods notebook: the steps are not in the
    order open, select, materialize, reduce, present: the two selections
    [tp_hinterland_location.sel(valid_time=...)] are applied to an array that
    [.compute()] has already materialized. *)
Lemma floods_selects_after_compute :
  pipeline_in_order (trace_of Floods.cells) = false /\
  List.filter (fun ev => negb (step_in_order ev)) (trace_of Floods.cells)
  = [ EvOp (Sel (Compute Named.tp_hinterland_location)
                [ ("valid_time", IAtom (AStr "2023")) ] None);
      EvOp (Sel (Compute Named.tp_hinterland_location)
                [ ("valid_time", ISlice (AStr "1991") (AStr "2020")) ] None) ].
Proof. split; vm_compute; reflexivity. Qed.

(** C1, amended.  In both notebooks the dataset handle is opened first; every
    [.compute()] is applied to a selection that is not yet materialized; every
    aggregate reduction ([sum], [mean], [std], [groupby], [resample]) is
    applied to an array that [.compute()] has materialized; every array handed
    to a plotting call is the result of such a reduction.  Coordinate
    selections come after the opening, before the materialization or after
    it. *)
Theorem pipeline_order_with_late_selections :
  Forall (fun nb =>
            let tr := trace_of nb in
            opens_first tr = true /\
            forallb step_in_order_sel_anywhere tr = true /\
            forallb (fun ev => negb (is_reduction ev)
                               || match operand ev with
                                  | Some a => in_memory a
                                  | None => false
                                  end) tr = true)
         notebooks.
Proof. repeat constructor. Qed.

(** ** Control structure *)



(** ** Data transfer *)

(** C3.  In both notebooks the dataset is opened with [chunks={}], which
    reads the metadata and leaves the arrays in the store; array data is
    moved exactly by the [.compute()] calls, three in each notebook, each on a
    graph that is not yet resident.  No opening, no selection and no other
    call, plots included, has to fetch anything: what they are given is
    either left lazy or already in memory. *)
Theorem transfer_only_at_compute :
  Forall (fun nb =>
            let tr := trace_of nb in
            raised (run no_failure nb) = None /\
            forallb opens_lazily tr = true /\
            forallb (fun ev => eqb (transfers ev) (is_compute ev)) tr = true /\
            length (List.filter transfers tr) = 3 /\
            forallb (fun ev => negb (is_open ev || is_select ev) || negb (transfers ev)) tr
            = true)
         notebooks.
Proof. repeat constructor. Qed.

(** ** Failure plans are consulted one call at a time *)

Lemma local_pure {A} (m : M A) :
  (forall s, calls (final_state (m s)) = calls s) -> local (fun _ => m).
Proof. intros H p s. rewrite H. split; [lia|reflexivity]. Qed.

Lemma local_ret {A} (a : A) : local (fun _ => ret a).
Proof. apply local_pure. reflexivity. Qed.

Lemma local_raise {A} (e : exn) : local (fun _ => @raise A e).
Proof. apply local_pure. reflexivity. Qed.

Lemma local_bind {A B} (m : (nat -> option exn) -> M A)
    (k : (nat -> option exn) -> A -> M B) :
  local m -> (forall a, local (fun p => k p a)) ->
  local (fun p => bind (m p) (k p)).
Proof.
  intros Hm Hk p s. destruct (Hm p s) as [Hle Hq]. unfold bind.
  destruct (m p s) as [a s1|e s1] eqn:E; cbn [final_state] in *.
  - destruct (Hk a p s1) as [Hle' Hq'].
    split; [lia|]. intros q Hagree.
    rewrite Hq by (intros k' Hk'; apply Hagree; lia).
    apply Hq'. intros k' Hk'. apply Hagree. lia.
  - split; [lia|]. intros q Hagree. rewrite Hq by exact Hagree. reflexivity.
Qed.

Lemma local_library (ev : event) : local (fun p => library p ev).
Proof.
  intros p s. unfold library.
  destruct (p (calls s)) as [e|] eqn:E; cbn [final_state calls];
    (split; [lia|]); intros q H; rewrite <- (H (calls s)) by lia; rewrite E; reflexivity.
Qed.

Lemma local_each {A B} (f : (nat -> option exn) -> A -> M B) (xs : list A) :
  Forall (fun x => local (fun p => f p x)) xs -> local (fun p => each (f p) xs).
Proof.
  induction 1 as [|x xs Hx _ IH]; cbn [each].
  - apply local_ret.
  - apply local_bind; [exact Hx|intros y].
    apply local_bind; [exact IH|intros ys]. apply local_ret.
Qed.

Lemma local_block {A} (f : (nat -> option exn) -> A -> M unit) (xs : list A) :
  Forall (fun x => local (fun p => f p x)) xs -> local (fun p => block (f p) xs).
Proof.
  intros H. unfold block. apply local_bind; [apply local_each, H|intros _; apply local_ret].
Qed.

Lemma local_scoped {A} (m : (nat -> option exn) -> M A) :
  local m -> local (fun p => scoped (m p)).
Proof.
  intros Hm p s. destruct (Hm p s) as [Hle Hq]. unfold scoped.
  destruct (m p s) as [a s1|e s1] eqn:E; cbn [final_state calls] in *;
    (split; [lia|]); intros q Hagree; rewrite Hq by exact Hagree; reflexivity.
Qed.

Lemma local_catch (body handler : (nat -> option exn) -> M unit) :
  local body -> local handler -> local (fun p => catch (body p) (handler p)).
Proof.
  intros Hb Hh p s. destruct (Hb p s) as [Hle Hq]. unfold catch.
  destruct (body p s) as [a s1|e s1] eqn:E; cbn [final_state] in *.
  - split; [lia|]. intros q Hagree. rewrite Hq by exact Hagree. reflexivity.
  - destruct (Hh p s1) as [Hle' Hq'].
    split; [lia|]. intros q Hagree.
    rewrite Hq by (intros k' Hk'; apply Hagree; lia).
    apply Hq'. intros k' Hk'. apply Hagree. lia.
Qed.

Lemma local_while (test : (nat -> option exn) -> M bool)
    (body : (nat -> option exn) -> M unit) (n : nat) :
  local test -> local body -> local (fun p => while_loop (test p) (body p) n).
Proof.
  intros Ht Hb. induction n as [|n IH]; cbn [while_loop].
  - apply local_raise.
  - apply local_bind; [exact Ht|intros [|]].
    + apply local_bind; [exact Hb|intros _; exact IH].
    + apply local_ret.
Qed.

(** The primitives that leave the call counter alone. *)
Lemma local_lookup_name (x : string) : local (fun _ => lookup_name x).
Proof.
  apply local_pure. intros s. unfold lookup_name.
  repeat case_match; reflexivity.
Qed.

Lemma local_set_name (x : string) (v : value) : local (fun _ => set_name x v).
Proof. apply local_pure. reflexivity. Qed.

Lemma local_from_option {A} (e : exn) (o : option A) : local (fun _ => from_option e o).
Proof. destruct o; [apply local_ret|apply local_raise]. Qed.

Lemma local_items_of (v : value) : local (fun _ => items_of v).
Proof. destruct v; first [apply local_ret|apply local_raise]. Qed.

Lemma local_truth (v : value) : local (fun _ => truth v).
Proof. destruct v; first [apply local_ret|apply local_raise]. Qed.

Lemma local_format_part (v : value) : local (fun _ => format_part v).
Proof. destruct v; first [apply local_ret|apply local_raise]. Qed.

Lemma local_import (m : string) (a : option string) : local (fun _ => import m a).
Proof. apply local_set_name. Qed.

Lemma local_operation (g : graph) : local (fun p => operation p g).
Proof.
  unfold operation. apply local_bind; [apply local_library|intros _; apply local_ret].
Qed.

Create HintDb local.

#[local] Hint Resolve local_ret local_raise local_library local_lookup_name
  local_set_name local_from_option local_items_of local_truth local_format_part
  local_import local_operation : local.

(** One step through a computation built from the pieces above. *)
Ltac local_step :=
  lazymatch goal with
  | |- local (fun p => bind _ _) => apply local_bind; [|intros]
  | |- local (fun p => if ?b then _ else _) => destruct b
  | |- local (fun p => match ?x with _ => _ end) => destruct x
  | |- _ => solve [ auto with local ]
  end.

Ltac local_auto := repeat local_step.

Lemma local_get_attr (o : value) (a : string) : local (fun p => get_attr p o a).
Proof. unfold get_attr. local_auto. Qed.

Lemma local_get_item (o i : value) : local (fun p => get_item p o i).
Proof. unfold get_item. local_auto. Qed.

Lemma local_binary (op : arith) (l r : value) : local (fun p => binary p op l r).
Proof. unfold binary. local_auto. Qed.

Lemma local_call_builtin (b : string) (args : list value) :
  local (fun _ => call_builtin b args).
Proof. unfold call_builtin. local_auto. Qed.

Lemma local_call_method (g : graph) (attrs : list (string * value)) (name : string)
    (args : list value) (kws : list (string * value)) :
  local (fun p => call_method p g attrs name args kws).
Proof. unfold call_method. local_auto. Qed.

#[local] Hint Resolve local_get_attr local_get_item local_binary local_call_builtin
  local_call_method : local.

Lemma local_apply (f : value) (args : list value) (kws : list (string * value)) :
  local (fun p => apply p f args kws).
Proof. unfold apply. local_auto. Qed.

#[local] Hint Resolve local_apply : local.

(** Induction over expressions and statements, through the lists they hold. *)
Lemma expr_ind' (P : expr -> Prop) :
  (forall x, P (Name x)) ->
  (forall s, P (Str s)) ->
  (forall n, P (Int n)) ->
  (forall l, P (Float l)) ->
  P NoneLit ->
  P TrueLit ->
  (forall o a, P o -> P (Attribute o a)) ->
  (forall o i, P o -> P i -> P (Subscript o i)) ->
  (forall f args kws,
      P f -> Forall P args -> Forall (fun ka => P (snd ka)) kws -> P (Call f args kws)) ->
  (forall es, Forall P es -> P (ListLit es)) ->
  (forall es, Forall P es -> P (TupleLit es)) ->
  (forall items, Forall (fun kv => P (fst kv) /\ P (snd kv)) items -> P (DictLit items)) ->
  (forall l op r, P l -> P r -> P (BinOp l op r)) ->
  (forall l r, P l -> P r -> P (CompareEq l r)) ->
  (forall es, Forall P es -> P (JoinedStr es)) ->
  (forall elt gens,
      P elt -> Forall (fun g => P (snd g)) gens -> P (ListComp elt gens)) ->
  forall e, P e.
Proof.
  intros HName HStr HInt HFloat HNone HTrue HAttr HSub HCall HList HTuple HDict
         HBin HCmp HJoin HComp.
  fix IH 1. intros e.
  assert (many : forall es, Forall P es).
  { intros es. induction es as [|e' es IHes]; constructor; [apply IH|exact IHes]. }
  destruct e as [x|s|n|l| | |o a|o i|f args kws|es|es|items|l op r|l r|es|elt gens].
  - apply HName.
  - apply HStr.
  - apply HInt.
  - apply HFloat.
  - apply HNone.
  - apply HTrue.
  - apply HAttr, IH.
  - apply HSub; apply IH.
  - apply HCall; [apply IH|apply many|].
    induction kws as [|[k a] kws IHkws]; constructor; [apply IH|exact IHkws].
  - apply HList, many.
  - apply HTuple, many.
  - apply HDict.
    induction items as [|[k v] items IHitems]; constructor;
      [split; apply IH|exact IHitems].
  - apply HBin; apply IH.
  - apply HCmp; apply IH.
  - apply HJoin, many.
  - apply HComp; [apply IH|].
    induction gens as [|[x it] gens IHgens]; constructor; [apply IH|exact IHgens].
Qed.

Lemma stmt_ind' (P : stmt -> Prop) :
  (forall m a, P (Import m a)) ->
  (forall l, P (Magic l)) ->
  (forall t, P (Comment t)) ->
  (forall t v, P (Assign t v)) ->
  (forall e, P (Expr e)) ->
  (forall x it body, Forall P body -> P (For x it body)) ->
  (forall t body orelse, Forall P body -> Forall P orelse -> P (If t body orelse)) ->
  (forall t body, Forall P body -> P (While t body)) ->
  (forall body handler, Forall P body -> Forall P handler -> P (Try body handler)) ->
  (forall e, P (Raise e)) ->
  forall c, P c.
Proof.
  intros HImport HMagic HComment HAssign HExpr HFor HIf HWhile HTry HRaise.
  fix IH 1. intros c.
  assert (many : forall cs, Forall P cs).
  { intros cs. induction cs as [|c' cs IHcs]; constructor; [apply IH|exact IHcs]. }
  destruct c.
  - apply HImport.
  - apply HMagic.
  - apply HComment.
  - apply HAssign.
  - apply HExpr.
  - apply HFor, many.
  - apply HIf; apply many.
  - apply HWhile, many.
  - apply HTry; apply many.
  - apply HRaise.
Qed.

Lemma local_comprehension {E} (f : (nat -> option exn) -> E -> M value)
    (elt : (nat -> option exn) -> M value) (gens : list (string * E)) :
  local elt ->
  Forall (fun g => local (fun p => f p (snd g))) gens ->
  local (fun p => comprehension (elt p) (List.map (fun '(x, it) => (x, f p it)) gens)).
Proof.
  intros Help Hgens.
  induction Hgens as [|[x it] gens Hit _ IH]; cbn [List.map comprehension].
  - apply local_bind; [exact Help|intros v; apply local_ret].
  - apply local_bind; [exact Hit|intros seq].
    apply local_bind; [apply local_items_of|intros items].
    apply local_bind; [|intros chunks; apply local_ret].
    apply local_each. apply Forall_forall. intros v _.
    apply local_bind; [apply local_set_name|intros _; exact IH].
Qed.

Lemma local_eval (e : expr) : local (fun p => eval p e).
Proof.
  induction e using expr_ind'; cbn [eval]; try solve [ local_auto ].
  - (* Call *)
    apply local_bind; [assumption|intros fv].
    apply local_bind; [apply local_each; assumption|intros avs].
    apply local_bind; [|intros kvs; apply local_apply].
    apply local_each. eapply Forall_impl; [eassumption|].
    intros [k a] Ha. cbn [snd] in Ha.
    apply local_bind; [exact Ha|intros v; apply local_from_option].
  - (* ListLit *)
    apply local_bind; [apply local_each; assumption|intros vs; apply local_ret].
  - (* TupleLit *)
    apply local_bind; [apply local_each; assumption|intros vs; apply local_ret].
  - (* DictLit *)
    apply local_bind; [|intros kvs; apply local_ret].
    apply local_each. eapply Forall_impl; [eassumption|].
    intros [k v] [Hk Hv]. cbn [fst snd] in Hk, Hv.
    apply local_bind; [exact Hk|intros a].
    apply local_bind; [exact Hv|intros b; apply local_ret].
  - (* JoinedStr *)
    apply local_bind; [|intros ss; apply local_ret].
    apply local_each. eapply Forall_impl; [eassumption|].
    intros part Hpart. cbn beta.
    apply local_bind; [exact Hpart|intros v; apply local_format_part].
  - (* ListComp *)
    apply local_bind; [|intros vs; apply local_ret].
    apply local_scoped. apply local_comprehension; assumption.
Qed.

#[local] Hint Resolve local_eval : local.

Lemma local_assign (target : expr) (v : value) : local (fun p => assign p target v).
Proof. unfold assign. local_auto. Qed.

#[local] Hint Resolve local_assign : local.

Lemma local_exec (fuel : nat) (c : stmt) : local (fun p => exec p fuel c).
Proof.
  induction c using stmt_ind'; cbn [exec]; try solve [ local_auto ].
  - (* For *)
    apply local_bind; [apply local_eval|intros seq].
    apply local_bind; [apply local_items_of|intros items].
    apply local_block. apply Forall_forall. intros v _.
    apply local_bind; [apply local_set_name|intros _].
    apply local_block. assumption.
  - (* If *)
    apply local_bind; [apply local_eval|intros v].
    apply local_bind; [apply local_truth|intros [|]]; apply local_block; assumption.
  - (* While *)
    apply local_while; [|apply local_block; assumption].
    apply local_bind; [apply local_eval|intros v; apply local_truth].
  - (* Try *)
    apply local_catch; apply local_block; assumption.
Qed.

Lemma local_exec_block (fuel : nat) (cs : list stmt) :
  local (fun p => exec_block p fuel cs).
Proof.
  unfold exec_block. apply local_block. apply Forall_forall. intros c _.
  apply local_exec.
Qed.

(** A run in which the first failing call is the [n]-th, with [e], is the
    run in which only that call fails. *)
Lemma run_first_failure (nb : notebook) (plan : nat -> option exn) (n : nat) (e : exn) :
  calls (final_state (run (failing n e) nb)) = S n ->
  plan n = Some e ->
  (forall k, k < n -> plan k = None) ->
  run plan nb = run (failing n e) nb.
Proof.
  intros Hcalls Hn Hbefore. unfold run in *.
  destruct (local_exec_block 0 (program nb) (failing n e) initial) as [_ Hq].
  apply Hq. intros k [_ Hk]. rewrite Hcalls in Hk. unfold failing.
  destruct (Nat.eqb_spec k n) as [->|Hne].
  - symmetry. exact Hn.
  - symmetry. apply Hbefore. lia.
Qed.

(** A run in which none of the calls fails is the run without failures. *)
Lemma run_without_failure (nb : notebook) (plan : nat -> option exn) :
  (forall k, k < calls (final_state (run no_failure nb)) -> plan k = None) ->
  run plan nb = run no_failure nb.
Proof.
  intros Hnone. unfold run in *.
  destruct (local_exec_block 0 (program nb) no_failure initial) as [_ Hq].
  apply Hq. intros k [_ Hk]. symmetry. apply Hnone. exact Hk.
Qed.

(** ** Failures *)

Lemma single_failure (nb : notebook) (n : nat) (e : exn) :
  In nb notebooks ->
  n < calls (final_state (run no_failure nb)) ->
  raised (run (failing n e) nb) = Some e /\
  calls (final_state (run (failing n e) nb)) = S n /\
  length (trace (final_state (run (failing n e) nb))) = n.
Proof.
  intros [<-|[<-|[]]] Hn.
  - destruct floods_runs as (_ & Hc & _). rewrite Hc in Hn. clear Hc.
    do 25 (destruct n as [|n]; [vm_compute; repeat split|]).
    lia.
  - destruct era5_runs as (_ & Hc & _). rewrite Hc in Hn. clear Hc.
    do 80 (destruct n as [|n]; [vm_compute; repeat split|]).
    lia.
Qed.



(** ** The plotting helper *)

(** C5.  The notebooks call three functions of the [display] module, [map],
    [maps] and [compare], and no other, in the text of the cells as in the
    runs.  Every [display.map] receives one array whose time axis has been
    reduced away, [display.maps] a non-empty list of arrays, and
    [display.compare] two time series. *)
Theorem display_calls_shapes :
  module_calls "display" (program Floods.cells) = [ "map"; "maps"; "compare" ] /\
  module_calls "display" (program Era5.cells) = [ "map"; "map" ] /\
  fst <$> display_calls (trace_of Floods.cells) = [ "map"; "maps"; "compare" ] /\
  fst <$> display_calls (trace_of Era5.cells) = [ "map"; "map" ] /\
  Forall (fun nb => forallb display_call_ok (display_calls (trace_of nb)) = true) notebooks.
Proof.
  split; [vm_compute; reflexivity|].
  split; [vm_compute; reflexivity|].
  split; [vm_compute; reflexivity|].
  split; [vm_compute; reflexivity|].
  repeat constructor.
Qed.

(** ** Selections *)

(** C6, as stated, fails on the ERA5 notebook:
    [t2m_germany_area.sel(valid_time="2023-10")] gives the date as one string,
    which is neither a slice nor a list of dates, nor any other listed form. *)
Lemma era5_date_string_selection :
  selects_in_listed_form
    (EvOp (Sel Named.t2m_germany_area [ ("valid_time", IAtom (AStr "2023-10")) ] None))
  = false /\
  List.filter (fun ev => negb (selects_in_listed_form ev)) (trace_of Era5.cells)
  = [ EvOp (Sel Named.t2m_germany_area [ ("valid_time", IAtom (AStr "2023-10")) ] None);
      EvOp (Sel (Compute Named.t2m_Berlin) [ ("valid_time", IAtom (AStr "2023")) ] None) ].
Proof. split; vm_compute; reflexivity. Qed.

(** C6, amended.  Every selection in the notebooks narrows an array along
    named coordinate axes in one of five forms: a bounding box (slices of
    latitude and longitude), a nearest-point lookup ([method="nearest"] with a
    latitude and a longitude), a date range ([valid_time] as a slice or as a
    list of dates), a calendar-field filter (a test on [valid_time.month], or a
    [groupby] on a field of [valid_time]), or a date string ([valid_time] as
    one string, a year or a year and month).  No selection materializes:
    its result is in memory exactly when its operand already was. *)
Theorem selection_forms :
  Forall (fun nb =>
            let tr := trace_of nb in
            forallb selects_in_known_form tr = true /\
            forallb keeps_residency tr = true /\
            forallb (fun ev => negb (is_select ev) || negb (transfers ev)) tr = true)
         notebooks /\
  List.filter (fun ev => negb (selects_in_listed_form ev)) (trace_of Floods.cells)
  = [ EvOp (Sel (Compute Named.tp_hinterland_location)
                [ ("valid_time", IAtom (AStr "2023")) ] None) ] /\
  List.filter (fun ev => negb (selects_in_listed_form ev)) (trace_of Era5.cells)
  = [ EvOp (Sel Named.t2m_germany_area [ ("valid_time", IAtom (AStr "2023-10")) ] None);
      EvOp (Sel (Compute Named.t2m_Berlin) [ ("valid_time", IAtom (AStr "2023")) ] None) ].
Proof.
  split; [repeat constructor|].
  split; vm_compute; reflexivity.
Qed.

(** ** Transports *)

(** C8.  Each notebook has one dataset-opening call.  The floods notebook opens an
    [s3://] URL, the ERA5 notebook an [https://] URL with
    [trust_env] set in the client options, so that the credentials come from
    [~/.netrc], as the comment above the call asks; no opening uses another
    transport. *)
Theorem dataset_transports :
  Forall (fun nb => module_calls "xr" (program nb) = [ "open_dataset" ]) notebooks /\
  (fun o => transport_of (fst o)) <$> opened (trace_of Floods.cells) = [ Some S3 ] /\
  (fun o => transport_of (fst o)) <$> opened (trace_of Era5.cells) = [ Some Https ] /\
  Forall (fun nb => forallb transport_ok (opened (trace_of nb)) = true) notebooks /\
  In (Comment " your `~/.netrc` file MUST contain your credentials for earthdatahub.com")
     (program Era5.cells).
Proof.
  split; [repeat constructor|].
  split; [vm_compute; reflexivity|].
  split; [vm_compute; reflexivity|].
  split; [repeat constructor|].
  vm_compute. find_event.
Qed.

(** ** The September average *)

(** C9.  In the floods notebook [MONTH_REFERENCE_TIME] holds the 900 dates
    [YYYY-09-DD] of the years 1991 to 2020 and the days 01 to 30, year by
    year; [tp_greece_september_1991_2020_average] is, in every grid cell of
    the Greece selection, the sum over these 900 time steps, divided by 30,
    the number of years, then multiplied by 1000, and its [units] attribute
    is [mm]. *)
Theorem september_average_value :
  value_of Floods.cells "MONTH_REFERENCE_TIME"
  = Some (VList (VStr <$> September.reference_dates)) /\
  length September.reference_dates = 900 /\
  value_of Floods.cells "tp_greece"
  = Some (VXarray September.tp_greece []) /\
  value_of Floods.cells "tp_greece_september_1991_2020_average"
  = Some (VXarray September.september_average [ ("units", VStr "mm") ]) /\
  forall (num cell : Type) (zero : num) (add sub mul div : num -> num -> num)
         (of_Z : Z -> num) (view : string -> cell -> num) (c : cell),
    September.at_cell
      (September.denote zero add sub mul div of_Z view September.september_average) c
    = Some (mul (div (fold_left add ((fun t => view t c) <$> September.reference_dates) zero)
                     (of_Z 30%Z))
                (of_Z 1000%Z)).
Proof.
  split; [vm_compute; reflexivity|].
  split; [vm_compute; reflexivity|].
  split; [vm_compute; reflexivity|].
  split; [vm_compute; reflexivity|].
  intros. vm_compute. reflexivity.
Qed.

(** * Further properties *)

(** ** The catalog as an index *)

Import CatalogIndex Plots.

Lemma prefix_split (p s : string) :
  String.prefix p s = true -> exists rest, s = p +:+ rest.
Proof.
  revert s. induction p as [|c p IH]; intros s H.
  - exists s. reflexivity.
  - destruct s as [|c' s]; cbn [String.prefix] in H; [discriminate|].
    destruct (ascii_dec c c') as [<-|]; [|discriminate].
    destruct (IH s H) as [rest ->]. exists rest. reflexivity.
Qed.

Lemma contains_split (needle hay : string) :
  contains needle hay = true -> exists before after, hay = before +:+ needle +:+ after.
Proof.
  induction hay as [|c hay IH]; cbn [contains]; intros H;
    apply orb_true_iff in H as [H|H].
  - destruct (prefix_split _ _ H) as [rest ->]. exists "", rest. reflexivity.
  - discriminate.
  - destruct (prefix_split _ _ H) as [rest ->]. exists "", rest. reflexivity.
  - destruct (IH H) as (before & after & ->). exists (String c before), after. reflexivity.
Qed.

(** X1.  The ids of the catalog are pairwise distinct, so looking an entry up
    by its id gives back that entry. *)
Theorem catalog_lookup_by_id :
  NoDup (Catalog.string_member "id" <$> Catalog.entries) /\
  Forall (fun e => exists id, Catalog.string_member "id" e = Some id /\ entry_of id = Some e)
         Catalog.entries.
Proof.
  split.
  - apply (bool_decide_unpack _). vm_compute. exact I.
  - repeat constructor; eexists; split; reflexivity.
Qed.

(** X2.  The id of an entry determines its paths: the source is
    [./use-cases/<id>.ipynb] and the export [./use-cases/<id>.html]. *)
Theorem catalog_paths_from_id :
  Forall (fun e =>
            exists id,
              Catalog.string_member "id" e = Some id /\
              Catalog.string_member "source" e = Some ("./use-cases/" +:+ id +:+ ".ipynb") /\
              Catalog.string_member "export" e = Some ("./use-cases/" +:+ id +:+ ".html"))
         Catalog.entries.
Proof. repeat constructor; eexists; repeat split; reflexivity. Qed.

(** X3.  Every entry has exactly the eight members [id], [title],
    [description], [source], [export], [thumbnail_url], [collection] and
    [dataset], in this order: none is repeated and there is no other. *)
Theorem catalog_members_exact :
  Forall (fun e => member_names e = Catalog.required_members /\ NoDup (member_names e))
         Catalog.entries.
Proof.
  repeat constructor; try reflexivity;
    apply (bool_decide_unpack _); vm_compute; exact I.
Qed.

(** X4.  The thumbnail of an entry follows its collection: an entry of the
    [eurostat] collection, whose id starts with [eurostats_], has a remote
    [.png] under [https://apps.mundialis.de/bopen_hedp/thumbnails/]; every
    other entry has the local image [./use-cases/<id>.jpg]. *)
Theorem catalog_thumbnails :
  Forall (fun e =>
            exists id collection thumbnail,
              Catalog.string_member "id" e = Some id /\
              Catalog.string_member "collection" e = Some collection /\
              Catalog.string_member "thumbnail_url" e = Some thumbnail /\
              if String.eqb collection "eurostat"
              then String.prefix "eurostats_" id = true /\
                   String.prefix "https://apps.mundialis.de/bopen_hedp/thumbnails/" thumbnail
                   = true /\
                   is_Some (Catalog.strip_suffix ".png" thumbnail)
              else String.prefix "eurostats_" id = false /\
                   thumbnail = "./use-cases/" +:+ id +:+ ".jpg")
         Catalog.entries.
Proof.
  repeat constructor; do 3 eexists;
    (split; [reflexivity|]); (split; [reflexivity|]); (split; [reflexivity|]);
    cbn; repeat split; eexists; reflexivity.
Qed.

(** X5.  The dataset tag does not identify an entry: the entries
    [eurostats_final-energy-consumption] and [eurostats_CDD-and-HDD-data]
    carry the same tag, and they are the only two that share one. *)
Theorem catalog_shared_dataset :
  Catalog.string_member "id" <$> List.filter shares_dataset Catalog.entries
  = [ Some "eurostats_final-energy-consumption"; Some "eurostats_CDD-and-HDD-data" ] /\
  Catalog.string_member "dataset" <$> List.filter shares_dataset Catalog.entries
  = [ Some "geoprocessed-eurostat-final-energy-consumption_sdg_07_11";
      Some "geoprocessed-eurostat-final-energy-consumption_sdg_07_11" ] /\
  ~ NoDup (Catalog.string_member "dataset" <$> Catalog.entries).
Proof.
  split; [vm_compute; reflexivity|].
  split; [vm_compute; reflexivity|].
  apply (bool_decide_unpack _). vm_compute. exact I.
Qed.


(** ** What the notebooks compute and plot *)


(** X8.  In the floods notebook [tp_greece_storm_daniel_sum] is, in every
    grid cell of the Greece selection, the sum of the two time steps
    2023-09-06 and 2023-09-07 multiplied by 1000, with [units] assigned
    [mm]. *)
Theorem storm_daniel_total :
  value_of Floods.cells "tp_greece_storm_daniel_sum"
  = Some (VXarray storm_daniel_sum [ ("units", VStr "mm") ]) /\
  forall (num cell : Type) (zero : num) (add sub mul div : num -> num -> num)
         (of_Z : Z -> num) (view : string -> cell -> num) (c : cell),
    September.at_cell (September.denote zero add sub mul div of_Z view storm_daniel_sum) c
    = Some (mul (add (add zero (view "2023-09-06" c)) (view "2023-09-07" c))
                (of_Z 1000%Z)).
Proof. split; [vm_compute; reflexivity|]. intros. reflexivity. Qed.

(** X9.  Every array the floods notebook hands to [display.map] and
    [display.maps] is in millimetres, multiplied by 1000 with [units]
    assigned [mm], and both calls set [vmax=400]; the two series it hands to
    [display.compare] are passed as they come from the store, multiplied by
    nothing and with no unit assigned. *)
Theorem floods_units :
  let tr := trace_of Floods.cells in
  length <$> (positional <$> calls_of "display" "map" tr) = [ 1 ] /\
  length <$> (positional <$> calls_of "display" "maps" tr) = [ 2 ] /\
  length <$> (positional <$> calls_of "display" "compare" tr) = [ 2 ] /\
  forallb (fun c => forallb in_millimetres (positional c)
                    && match assoc "vmax" (snd c) with
                       | Some (VInt 400) => true
                       | _ => false
                       end)
          (calls_of "display" "map" tr ++ calls_of "display" "maps" tr) = true /\
  forallb (fun c => forallb unscaled (positional c)) (calls_of "display" "compare" tr) = true.
Proof. repeat split. Qed.

(** X10.  The two series the floods notebook compares come from one
    [.compute()] of the location's series, each taken at midnight: one for
    2023, the other for the years 1991 to 2020; the variable named
    [..._1991_2022] holds no year after 2020. *)
Theorem compare_series :
  value_of Floods.cells "tp_hinterland_location_daily_total_2023"
  = Some (VXarray (daily_total (IAtom (AStr "2023"))) []) /\
  value_of Floods.cells "tp_hinterland_location_daily_total_1991_2022"
  = Some (VXarray (daily_total (ISlice (AStr "1991") (AStr "2020"))) []) /\
  fst <$> calls_of "display" "compare" (trace_of Floods.cells)
  = [ [ VXarray (daily_total (IAtom (AStr "2023"))) [];
        VXarray (daily_total (ISlice (AStr "1991") (AStr "2020"))) [] ] ] /\
  computes_in (daily_total (IAtom (AStr "2023")))
  = [ Compute Named.tp_hinterland_location ] /\
  computes_in (daily_total (ISlice (AStr "1991") (AStr "2020")))
  = [ Compute Named.tp_hinterland_location ].
Proof. repeat split; vm_compute; reflexivity. Qed.

(** X11.  Whatever a notebook fetches has been cut down first: each of the
    three [.compute()] calls of a notebook is applied to an array narrowed on
    latitude and on longitude, and narrowed on [valid_time] as well unless it
    is the time series of a single point. *)
Theorem computes_are_cut_down :
  Forall (fun nb =>
            length (computed (trace_of nb)) = 3 /\
            forallb cut_down (computed (trace_of nb)) = true)
         notebooks.
Proof. repeat constructor. Qed.

(** X12.  What is fetched is cast to [float32] before it is fetched.  The ERA5
    notebook fetches temperatures from which 273.15 has been subtracted and
    nothing else; the floods notebook fetches the precipitation unscaled, and
    multiplies by 1000 only after the sum over time. *)
Theorem computed_values :
  Forall (fun nb => forallb (fun a => mem "float32" (casts a)) (computed (trace_of nb)) = true)
         notebooks /\
  scalings <$> computed (trace_of Era5.cells)
  = [ [ (ASub, AFloat "273.15") ]; [ (ASub, AFloat "273.15") ]; [ (ASub, AFloat "273.15") ] ] /\
  scalings <$> computed (trace_of Floods.cells) = [ []; []; [] ].
Proof.
  split; [repeat constructor|].
  split; vm_compute; reflexivity.
Qed.

(** X14.  The Berlin statistics of the ERA5 notebook all come from one
    [.compute()] of the point's series: the monthly mean and the monthly
    standard deviation of the years 1981 to 2010 are the same grouping by
    calendar month under two reducers, and the 2023 monthly means resample the
    year 2023 of the same series.  The error bars are drawn from that mean,
    that deviation and the month coordinate of the mean, all three along
    [month]. *)
Theorem berlin_statistics :
  value_of Era5.cells "t2m_Berlin_climatology_mean" = Some (VXarray (climatology Mean) []) /\
  value_of Era5.cells "t2m_Berlin_climatology_std" = Some (VXarray (climatology Std) []) /\
  value_of Era5.cells "t2m_Berlin_2023_monthly_means" = Some (VXarray monthly_means_2023 []) /\
  computes_in <$> [ climatology Mean; climatology Std; monthly_means_2023 ]
  = [ [ Compute Named.t2m_Berlin ]; [ Compute Named.t2m_Berlin ]; [ Compute Named.t2m_Berlin ] ] /\
  calls_of "matplotlib.pyplot" "errorbar" (trace_of Era5.cells)
  = [ ([ VXarray (Coord (climatology Mean) "month") []; VXarray (climatology Mean) [] ],
       [ ("yerr", VXarray (climatology Std) []); ("fmt", VStr "o");
         ("label", VStr "Standard Deviation"); ("color", VStr "#a9a9a9") ]) ] /\
  dims <$> [ Coord (climatology Mean) "month"; climatology Mean; climatology Std ]
  = [ [ "month" ]; [ "month" ]; [ "month" ] ].
Proof. repeat split; vm_compute; reflexivity. Qed.

(** X15.  The anomaly the ERA5 notebook maps is the mean of October 2023
    minus the mean of the Octobers of 1981 to 2010, two maps over the same
    Germany selection, each from a [.compute()] of its own.  The title the map
    is given reads [Oct 2013], not 2023. *)
Theorem anomaly_map :
  value_of Era5.cells "anomaly"
  = Some (VXarray (Arith ASub october_2023_mean octobers_1981_2010_mean) []) /\
  dims october_2023_mean = [ "latitude"; "longitude" ] /\
  dims octobers_1981_2010_mean = [ "latitude"; "longitude" ] /\
  length (computes_in (Arith ASub october_2023_mean octobers_1981_2010_mean)) = 2 /\
  calls_of "display" "map" (trace_of Era5.cells)
  = [ ([ VXarray october_2023_mean [] ],
       [ ("vmax", VNone); ("cmap", VStr "YlOrRd");
         ("title", VStr "Mean Surface Temperature, Oct 2023") ]);
      ([ VXarray (Arith ASub october_2023_mean octobers_1981_2010_mean) [] ],
       [ ("vmax", VNone); ("cmap", VStr "YlOrRd");
         ("title", VStr "Mean Surface Temperature anomaly (ref 1981-2010), Oct 2013") ]) ].
Proof. repeat split; vm_compute; reflexivity. Qed.

(** ** Runs that stop early *)

Import Truncation.

Lemma truncates_pure {A} (m : M A) :
  (forall s, trace (final_state (m s)) = trace s) -> truncates (fun _ => m).
Proof. intros H p s. rewrite H. split; [reflexivity|left; reflexivity]. Qed.

Lemma truncates_ret {A} (a : A) : truncates (fun _ => ret a).
Proof. apply truncates_pure. reflexivity. Qed.

Lemma truncates_raise {A} (e : exn) : truncates (fun _ => @raise A e).
Proof. apply truncates_pure. reflexivity. Qed.

Lemma truncates_bind {A B} (m : (nat -> option exn) -> M A)
    (k : (nat -> option exn) -> A -> M B) :
  truncates m -> (forall a, truncates (fun p => k p a)) ->
  truncates (fun p => bind (m p) (k p)).
Proof.
  intros Hm Hk p s.
  destruct (Hm p s) as [Hgrow Hcut]. destruct (Hm no_failure s) as [Hgrow0 _].
  unfold bind.
  destruct (m p s) as [a s1|e s1] eqn:E; cbn [final_state] in *.
  - destruct (Hk a p s1) as [Hgrow1 Hcut1].
    split; [etrans; [exact Hgrow|exact Hgrow1]|].
    destruct Hcut as [Heq|(e & s' & Hr & _)]; [|discriminate Hr].
    rewrite <- Heq. exact Hcut1.
  - split; [exact Hgrow|].
    destruct Hcut as [Heq|(e' & s' & Hr & Hplan & Hpre)].
    + left. rewrite <- Heq. reflexivity.
    + injection Hr as <- <-.
      right. exists e, s1. split; [reflexivity|]. split; [exact Hplan|].
      destruct (m no_failure s) as [a0 s0|e0 s0]; cbn [final_state] in *; [|exact Hpre].
      destruct (Hk a0 no_failure s0) as [Hgrow2 _]. etrans; [exact Hpre|exact Hgrow2].
Qed.

Lemma truncates_library (ev : event) : truncates (fun p => library p ev).
Proof.
  intros p s. unfold library, no_failure.
  destruct (p (calls s)) as [e|] eqn:E; cbn [final_state trace].
  - split; [reflexivity|]. right. eexists _, _. split; [reflexivity|].
    split; [exists (calls s); exact E|]. cbn [trace]. apply prefix_app_r. reflexivity.
  - split; [apply prefix_app_r; reflexivity|left; reflexivity].
Qed.

Lemma truncates_each {A B} (f : (nat -> option exn) -> A -> M B) (xs : list A) :
  Forall (fun x => truncates (fun p => f p x)) xs -> truncates (fun p => each (f p) xs).
Proof.
  induction 1 as [|x xs Hx _ IH]; cbn [each].
  - apply truncates_ret.
  - apply truncates_bind; [exact Hx|intros y].
    apply truncates_bind; [exact IH|intros ys]. apply truncates_ret.
Qed.

Lemma truncates_block {A} (f : (nat -> option exn) -> A -> M unit) (xs : list A) :
  Forall (fun x => truncates (fun p => f p x)) xs -> truncates (fun p => block (f p) xs).
Proof.
  intros H. unfold block.
  apply truncates_bind; [apply truncates_each, H|intros _; apply truncates_ret].
Qed.

Lemma truncates_scoped {A} (m : (nat -> option exn) -> M A) :
  truncates m -> truncates (fun p => scoped (m p)).
Proof.
  intros Hm p s. destruct (Hm p s) as [Hgrow Hcut]. unfold scoped.
  destruct (m p s) as [a s1|e s1] eqn:E; cbn [final_state trace] in *.
  - split; [exact Hgrow|].
    destruct Hcut as [Heq|(e & s' & Hr & _)]; [|discriminate Hr].
    left. rewrite <- Heq. reflexivity.
  - split; [exact Hgrow|].
    destruct Hcut as [Heq|(e' & s' & Hr & Hplan & Hpre)].
    + left. rewrite <- Heq. reflexivity.
    + injection Hr as <- <-.
      right. exists e, s1. split; [reflexivity|]. split; [exact Hplan|].
      destruct (m no_failure s) as [a0 s0|e0 s0]; cbn [final_state trace] in *; exact Hpre.
Qed.

Lemma truncates_while (test : (nat -> option exn) -> M bool)
    (body : (nat -> option exn) -> M unit) (n : nat) :
  truncates test -> truncates body -> truncates (fun p => while_loop (test p) (body p) n).
Proof.
  intros Ht Hb. induction n as [|n IH]; cbn [while_loop].
  - apply truncates_raise.
  - apply truncates_bind; [exact Ht|intros [|]].
    + apply truncates_bind; [exact Hb|intros _; exact IH].
    + apply truncates_ret.
Qed.

Lemma truncates_lookup_name (x : string) : truncates (fun _ => lookup_name x).
Proof.
  apply truncates_pure. intros s. unfold lookup_name.
  repeat case_match; reflexivity.
Qed.

Lemma truncates_set_name (x : string) (v : value) : truncates (fun _ => set_name x v).
Proof. apply truncates_pure. reflexivity. Qed.

Lemma truncates_from_option {A} (e : exn) (o : option A) :
  truncates (fun _ => from_option e o).
Proof. destruct o; [apply truncates_ret|apply truncates_raise]. Qed.

Lemma truncates_items_of (v : value) : truncates (fun _ => items_of v).
Proof. destruct v; first [apply truncates_ret|apply truncates_raise]. Qed.

Lemma truncates_truth (v : value) : truncates (fun _ => truth v).
Proof. destruct v; first [apply truncates_ret|apply truncates_raise]. Qed.

Lemma truncates_format_part (v : value) : truncates (fun _ => format_part v).
Proof. destruct v; first [apply truncates_ret|apply truncates_raise]. Qed.

Lemma truncates_import (m : string) (a : option string) : truncates (fun _ => import m a).
Proof. apply truncates_set_name. Qed.

Lemma truncates_operation (g : graph) : truncates (fun p => operation p g).
Proof.
  unfold operation.
  apply truncates_bind; [apply truncates_library|intros _; apply truncates_ret].
Qed.

Create HintDb truncates.

#[local] Hint Resolve truncates_ret truncates_raise truncates_library truncates_lookup_name
  truncates_set_name truncates_from_option truncates_items_of truncates_truth
  truncates_format_part truncates_import truncates_operation : truncates.

Ltac truncates_step :=
  lazymatch goal with
  | |- truncates (fun p => bind _ _) => apply truncates_bind; [|intros]
  | |- truncates (fun p => if ?b then _ else _) => destruct b
  | |- truncates (fun p => match ?x with _ => _ end) => destruct x
  | |- _ => solve [ auto with truncates ]
  end.

Ltac truncates_auto := repeat truncates_step.

Lemma truncates_get_attr (o : value) (a : string) : truncates (fun p => get_attr p o a).
Proof. unfold get_attr. truncates_auto. Qed.

Lemma truncates_get_item (o i : value) : truncates (fun p => get_item p o i).
Proof. unfold get_item. truncates_auto. Qed.

Lemma truncates_binary (op : arith) (l r : value) : truncates (fun p => binary p op l r).
Proof. unfold binary. truncates_auto. Qed.

Lemma truncates_call_builtin (b : string) (args : list value) :
  truncates (fun _ => call_builtin b args).
Proof. unfold call_builtin. truncates_auto. Qed.

Lemma truncates_call_method (g : graph) (attrs : list (string * value)) (name : string)
    (args : list value) (kws : list (string * value)) :
  truncates (fun p => call_method p g attrs name args kws).
Proof. unfold call_method. truncates_auto. Qed.

#[local] Hint Resolve truncates_get_attr truncates_get_item truncates_binary
  truncates_call_builtin truncates_call_method : truncates.

Lemma truncates_apply (f : value) (args : list value) (kws : list (string * value)) :
  truncates (fun p => apply p f args kws).
Proof. unfold apply. truncates_auto. Qed.

#[local] Hint Resolve truncates_apply : truncates.

Lemma truncates_comprehension {E} (f : (nat -> option exn) -> E -> M value)
    (elt : (nat -> option exn) -> M value) (gens : list (string * E)) :
  truncates elt ->
  Forall (fun g => truncates (fun p => f p (snd g))) gens ->
  truncates (fun p => comprehension (elt p) (List.map (fun '(x, it) => (x, f p it)) gens)).
Proof.
  intros Help Hgens.
  induction Hgens as [|[x it] gens Hit _ IH]; cbn [List.map comprehension].
  - apply truncates_bind; [exact Help|intros v; apply truncates_ret].
  - apply truncates_bind; [exact Hit|intros seq].
    apply truncates_bind; [apply truncates_items_of|intros items].
    apply truncates_bind; [|intros chunks; apply truncates_ret].
    apply truncates_each. apply Forall_forall. intros v _.
    apply truncates_bind; [apply truncates_set_name|intros _; exact IH].
Qed.

(** Expressions hold no handler: every expression truncates. *)
Lemma truncates_eval (e : expr) : truncates (fun p => eval p e).
Proof.
  induction e using expr_ind'; cbn [eval]; try solve [ truncates_auto ].
  - apply truncates_bind; [assumption|intros fv].
    apply truncates_bind; [apply truncates_each; assumption|intros avs].
    apply truncates_bind; [|intros kvs; apply truncates_apply].
    apply truncates_each. eapply Forall_impl; [eassumption|].
    intros [k a] Ha. cbn [snd] in Ha.
    apply truncates_bind; [exact Ha|intros v; apply truncates_from_option].
  - apply truncates_bind; [apply truncates_each; assumption|intros vs; apply truncates_ret].
  - apply truncates_bind; [apply truncates_each; assumption|intros vs; apply truncates_ret].
  - apply truncates_bind; [|intros kvs; apply truncates_ret].
    apply truncates_each. eapply Forall_impl; [eassumption|].
    intros [k v] [Hk Hv]. cbn [fst snd] in Hk, Hv.
    apply truncates_bind; [exact Hk|intros a].
    apply truncates_bind; [exact Hv|intros b; apply truncates_ret].
  - apply truncates_bind; [|intros ss; apply truncates_ret].
    apply truncates_each. eapply Forall_impl; [eassumption|].
    intros part Hpart. cbn beta.
    apply truncates_bind; [exact Hpart|intros v; apply truncates_format_part].
  - apply truncates_bind; [|intros vs; apply truncates_ret].
    apply truncates_scoped. apply truncates_comprehension; assumption.
Qed.

#[local] Hint Resolve truncates_eval : truncates.

Lemma truncates_assign (target : expr) (v : value) :
  truncates (fun p => assign p target v).
Proof. unfold assign. truncates_auto. Qed.

#[local] Hint Resolve truncates_assign : truncates.

Lemma try_free_cons (c : stmt) (cs : list stmt) :
  try_free (c :: cs) = try_free [ c ] && try_free cs.
Proof.
  unfold try_free, all_statements. cbn [flat_map].
  rewrite app_nil_r. apply forallb_app.
Qed.

Lemma try_free_each (cs : list stmt) :
  try_free cs = true -> Forall (fun c => try_free [ c ] = true) cs.
Proof.
  induction cs as [|c cs IH]; intros H; constructor.
  - rewrite try_free_cons in H. apply andb_true_iff in H. apply H.
  - apply IH. rewrite try_free_cons in H. apply andb_true_iff in H. apply H.
Qed.

Lemma try_free_nested (c : stmt) (inner : list stmt) :
  try_free [ c ] = true ->
  (exists rest, statements c = c :: all_statements inner ++ rest) ->
  try_free inner = true.
Proof.
  unfold try_free at 1, all_statements at 1. cbn [flat_map]. rewrite app_nil_r.
  intros H [rest Hs]. rewrite Hs in H. cbn [forallb] in H.
  apply andb_true_iff in H as [_ H]. rewrite forallb_app in H.
  apply andb_true_iff in H. apply H.
Qed.

Lemma truncates_exec (fuel : nat) (c : stmt) :
  try_free [ c ] = true -> truncates (fun p => exec p fuel c).
Proof.
  induction c as [m a|l|t|t v|e|x it body IH|t body orelse IHb IHo|t body IH
                 |body handler _ _|e] using stmt_ind';
    intros Hfree; cbn [exec]; try solve [ truncates_auto ].
  - (* For *)
    assert (Hbody : try_free body = true).
    { apply (try_free_nested _ _ Hfree). exists []. cbn [statements].
      rewrite app_nil_r. reflexivity. }
    apply truncates_bind; [apply truncates_eval|intros seq].
    apply truncates_bind; [apply truncates_items_of|intros items].
    apply truncates_block. apply Forall_forall. intros v _.
    apply truncates_bind; [apply truncates_set_name|intros _].
    apply truncates_block.
    apply try_free_each in Hbody. rewrite Forall_forall in *. auto.
  - (* If *)
    assert (Hbody : try_free body = true).
    { apply (try_free_nested _ _ Hfree). exists (all_statements orelse). reflexivity. }
    assert (Horelse : try_free orelse = true).
    { unfold try_free in *. unfold all_statements at 1 in Hfree.
      cbn [flat_map statements] in Hfree. rewrite app_nil_r in Hfree.
      cbn [forallb] in Hfree. apply andb_true_iff in Hfree as [_ Hfree].
      rewrite forallb_app in Hfree. apply andb_true_iff in Hfree. apply Hfree. }
    apply try_free_each in Hbody, Horelse.
    apply truncates_bind; [apply truncates_eval|intros v].
    apply truncates_bind; [apply truncates_truth|intros [|]];
      apply truncates_block; rewrite Forall_forall in *; auto.
  - (* While *)
    assert (Hbody : try_free body = true).
    { apply (try_free_nested _ _ Hfree). exists []. cbn [statements].
      rewrite app_nil_r. reflexivity. }
    apply try_free_each in Hbody.
    apply truncates_while.
    + apply truncates_bind; [apply truncates_eval|intros v; apply truncates_truth].
    + apply truncates_block. rewrite Forall_forall in *. auto.
  - (* Try *)
    discriminate Hfree.
Qed.

Lemma handler_free_try_free (cs : list stmt) :
  handler_free cs = true -> try_free cs = true.
Proof.
  unfold handler_free, try_free. rewrite !forallb_forall.
  intros H c Hc. specialize (H c Hc).
  destruct (is_try c); [discriminate H|reflexivity].
Qed.

(** A program without handlers truncates: failures can only cut its run
    short. *)
Lemma truncates_exec_block (fuel : nat) (cs : list stmt) :
  handler_free cs = true -> truncates (fun p => exec_block p fuel cs).
Proof.
  intros H. apply handler_free_try_free, try_free_each in H.
  unfold exec_block. apply truncates_block.
  eapply Forall_impl; [exact H|]. intros c Hc. apply truncates_exec. exact Hc.
Qed.

(** With a handler a failing run can leave the failure-free run: here the
    handler opens a second store, which the failure-free run never does. *)
Example try_is_not_truncated :
  let fallback :=
    [ Import "xarray" (Some "xr");
      Try [ Expr (Call (Attribute (Name "xr") "open_dataset") [ Str "s3://a.zarr" ] []) ]
          [ Expr (Call (Attribute (Name "xr") "open_dataset") [ Str "s3://b.zarr" ] []) ] ] in
  trace (final_state (exec_block no_failure 0 fallback initial)) = [ EvOpen "s3://a.zarr" [] ] /\
  trace (final_state (exec_block (failing 0 (Failure "timeout")) 0 fallback initial))
  = [ EvOpen "s3://b.zarr" [] ] /\
  handler_free fallback = false.
Proof. repeat split. Qed.

